(** * sktime.datatypes._utilities: time index, cutoff and window of a container

    A shallow embedding of [_get_index], [get_time_index],
    [get_index_for_series], [get_cutoff] and [get_window] of
    [sktime/datatypes/_utilities.py], and the properties of them that the
    specification states.

    Index labels (integers, or datetimes counted in ticks) are [Z]; a Python
    call is a [result]: the value it returns or the exception it raises. *)

From Stdlib Require Import ZArith Bool String List Lia.
Import ListNotations.
Open Scope Z_scope.

(** ** Python results *)

Inductive exn :=
| TypeError
| IndexError
| ValueError
| KeyError
| AttributeError
| UnboundLocalError.

Inductive result (A : Type) :=
| Ok (a : A)
| Raise (e : exn).

Arguments Ok {A} a.
Arguments Raise {A} e.

Definition bind {A B : Type} (r : result A) (k : A -> result B) : result B :=
  match r with
  | Ok a => k a
  | Raise e => Raise e
  end.

Notation "x <- r ;; k" := (bind r (fun x => k))
  (at level 61, r at next level, right associativity).

(** A list comprehension whose element expression may raise: the first
    exception, in iteration order, ends it. *)
Fixpoint mapM {A B : Type} (f : A -> result B) (l : list A) : result (list B) :=
  match l with
  | [] => Ok []
  | x :: l' => y <- f x ;; ys <- mapM f l' ;; Ok (y :: ys)
  end.

(** ** pandas indexes *)

(** One label of a [pd.MultiIndex]: the values of all levels but the last
    (instance or hierarchy keys), and the value of the last level (time). *)
Record mlabel := MLabel { outer : list Z; time : Z }.

Inductive index :=
| Index (vals : list Z)
| MultiIndex (names : list string) (rows : list mlabel).

Definition zrange (start stop : Z) : list Z :=
  map (fun i => start + Z.of_nat i) (seq 0 (Z.to_nat (stop - start))).

(** [pd.RangeIndex(start, stop)], by its values. *)
Definition RangeIndex (start stop : Z) : index := Index (zrange start stop).

(** What a call returns: [None], an index element (a scalar, or the tuple
    of a MultiIndex), or an index object. *)
Inductive pyval :=
| PNone
| PInt (z : Z)
| PTuple (t : list Z)
| PIndex (i : index).

Definition mtuple (r : mlabel) : list Z := outer r ++ [time r].

Definition index_len (i : index) : nat :=
  match i with
  | Index vals => length vals
  | MultiIndex _ rows => length rows
  end.

(** [idx[-1]] *)
Definition index_last (i : index) : result pyval :=
  match i with
  | Index vals =>
      match rev vals with
      | [] => Raise IndexError
      | v :: _ => Ok (PInt v)
      end
  | MultiIndex _ rows =>
      match rev rows with
      | [] => Raise IndexError
      | r :: _ => Ok (PTuple (mtuple r))
      end
  end.

(** [idx[[-1]]] *)
Definition index_last_ix (i : index) : result pyval :=
  match i with
  | Index vals =>
      match rev vals with
      | [] => Raise IndexError
      | v :: _ => Ok (PIndex (Index [v]))
      end
  | MultiIndex names rows =>
      match rev rows with
      | [] => Raise IndexError
      | r :: _ => Ok (PIndex (MultiIndex names [r]))
      end
  end.

(** [idx.get_level_values(-1)] *)
Definition get_level_values_last (i : index) : list Z :=
  match i with
  | Index vals => vals
  | MultiIndex _ rows => map time rows
  end.

(** ** numpy arrays *)

(** An array by its shape and its row-major buffer. *)
Record ndarray := NdArray { shape : list nat; data : list Z }.

Definition ndim (a : ndarray) : nat := length (shape a).

(** [len(a)]: the first dimension; a 0-d array is unsized. *)
Definition nd_len (a : ndarray) : result nat :=
  match shape a with
  | [] => Raise TypeError
  | n :: _ => Ok n
  end.

(** [a.shape[-1]] *)
Definition shape_last (a : ndarray) : result nat :=
  match rev (shape a) with
  | [] => Raise IndexError
  | n :: _ => Ok n
  end.

(** [a.shape[0]] *)
Definition shape_first (a : ndarray) : result nat :=
  match shape a with
  | [] => Raise IndexError
  | n :: _ => Ok n
  end.

Definition stride (a : ndarray) : nat := fold_right Nat.mul 1%nat (tl (shape a)).

Definition nd_wf (a : ndarray) : Prop :=
  length (data a) = fold_right Nat.mul 1%nat (shape a).

(** ** pandas tables *)

(** A cell of a table: a number, or (nested) a series or an array. *)
Inductive cell :=
| CNum (v : Z)
| CSeries (idx : index) (vals : list Z)
| CArray (a : ndarray).

Inductive dtype :=
| DtObject
| DtNumeric.

Definition dtype_eqb (a b : dtype) : bool :=
  match a, b with
  | DtObject, DtObject => true
  | DtNumeric, DtNumeric => true
  | _, _ => false
  end.

Record column := Column { col_name : string; col_dtype : dtype; col_cells : list cell }.

Record dataframe := DataFrame { df_index : index; df_columns : list column }.

Record series := Series { s_index : index; s_values : list cell }.

(** Every column has one cell per row. *)
Definition df_wf (d : dataframe) : Prop :=
  Forall (fun c => length (col_cells c) = index_len (df_index d)) (df_columns d).

(** The objects the functions dispatch on. [PyOther] is any other object,
    with its [len] when it has one. *)
Inductive container :=
| NdArr (a : ndarray)
| PdSeries (s : series)
| PdDataFrame (d : dataframe)
| PyList (l : list dataframe)
| PyOther (len : option nat).

Definition py_len (obj : container) : result nat :=
  match obj with
  | NdArr a => nd_len a
  | PdSeries s => Ok (index_len (s_index s))
  | PdDataFrame d => Ok (index_len (df_index d))
  | PyList l => Ok (length l)
  | PyOther None => Raise TypeError
  | PyOther (Some n) => Ok n
  end.

Definition is_multiindex (i : index) : bool :=
  match i with
  | Index _ => false
  | MultiIndex _ _ => true
  end.

(** ** [max] of Python *)

Fixpoint lex_gt (a b : list Z) : bool :=
  match a, b with
  | [], _ => false
  | _ :: _, [] => true
  | x :: a', y :: b' => (y <? x) || ((x =? y) && lex_gt a' b')
  end.

(** [bool(a > b)]: numbers, tuples, and index objects of one entry (an
    elementwise comparison whose truth value is that of its one entry). *)
Definition py_gt (a b : pyval) : result bool :=
  match a, b with
  | PInt x, PInt y => Ok (y <? x)
  | PTuple x, PTuple y => Ok (lex_gt x y)
  | PIndex (Index [x]), PIndex (Index [y]) => Ok (y <? x)
  | PIndex (MultiIndex _ [r]), PIndex (MultiIndex _ [s]) => Ok (lex_gt (mtuple r) (mtuple s))
  | PIndex _, PIndex _ => Raise ValueError
  | _, _ => Raise TypeError
  end.

Fixpoint py_max_from (m : pyval) (l : list pyval) : result pyval :=
  match l with
  | [] => Ok m
  | x :: l' => b <- py_gt x m ;; py_max_from (if b then x else m) l'
  end.

Definition py_max (l : list pyval) : result pyval :=
  match l with
  | [] => Raise ValueError
  | x :: l' => py_max_from x l'
  end.

(** ** [_get_index], [get_time_index], [get_index_for_series] *)

(** [_get_index(x)] for an array: no [index] attribute. *)
Definition _get_index_array (a : ndarray) : result index :=
  n <- shape_last a ;; Ok (RangeIndex 0 (Z.of_nat n)).

(** [_get_index(x)] for a cell: a nested series has an [index]; an array
    has a shape; a number (a numpy scalar) has the shape [()]. *)
Definition _get_index (x : cell) : result index :=
  match x with
  | CSeries idx _ => Ok idx
  | CArray a => _get_index_array a
  | CNum _ => Raise IndexError
  end.

Fixpoint find_level (name : string) (names : list string) : option nat :=
  match names with
  | [] => None
  | n :: names' =>
      if String.eqb n name then Some 0%nat
      else option_map S (find_level name names')
  end.

Fixpoint remove_nth {A : Type} (n : nat) (l : list A) : list A :=
  match n, l with
  | _, [] => []
  | O, _ :: l' => l'
  | S n', x :: l' => x :: remove_nth n' l'
  end.

(** What is left of a MultiIndex once one level is dropped. *)
Definition index_of_tuples (names : list string) (ts : list (list Z)) : index :=
  match names with
  | [_] => Index (map (fun t => last t 0) ts)
  | _ => MultiIndex names (map (fun t => MLabel (removelast t) (last t 0)) ts)
  end.

(** [X.xs(X.index.get_level_values("instances")[0], level="instances").index] *)
Definition xs_first_instance (names : list string) (rows : list mlabel) : result index :=
  match find_level "instances" names with
  | None => Raise KeyError
  | Some k =>
      match rows with
      | [] => Raise IndexError
      | r :: _ =>
          let key := nth k (mtuple r) 0 in
          let sel := filter (fun r' => nth k (mtuple r') 0 =? key) rows in
          Ok (index_of_tuples (remove_nth k names)
                (map (fun r' => remove_nth k (mtuple r')) sel))
      end
  end.

(** [X.iloc[0, 0]] *)
Definition iloc_0_0 (d : dataframe) : result cell :=
  match df_columns d with
  | [] => Raise IndexError
  | c :: _ =>
      match col_cells c with
      | [] => Raise IndexError
      | x :: _ => Ok x
      end
  end.

(** [X.iloc[0]] *)
Definition iloc_0 (s : series) : result cell :=
  match s_values s with
  | [] => Raise IndexError
  | x :: _ => Ok x
  end.

Definition get_time_index (X : container) : result index :=
  match X with
  | PdDataFrame d =>
      match df_index d with
      | MultiIndex names rows => xs_first_instance names rows
      | Index _ => x <- iloc_0_0 d ;; _get_index x
      end
  | PdSeries s =>
      match s_index s with
      | MultiIndex names rows => xs_first_instance names rows
      | Index _ => x <- iloc_0 s ;; _get_index x
      end
  | NdArr a => _get_index_array a
  | _ => Raise ValueError
  end.

(** The objects [get_index_for_series] is for: the Series-scitype mtypes. *)
Definition get_index_for_series (obj : container) (cutoff : Z) : result index :=
  match obj with
  | PdSeries s => Ok (s_index s)
  | PdDataFrame d => Ok (df_index d)
  | NdArr a => n <- shape_first a ;; Ok (RangeIndex cutoff (cutoff + Z.of_nat n))
  | _ => Raise AttributeError
  end.

(** ** [get_cutoff] *)

(** [x.index] of a cell of an object column. *)
Definition cell_index (x : cell) : result index :=
  match x with
  | CSeries idx _ => Ok idx
  | _ => Raise AttributeError
  end.

(** [obj.index[[-1]] if return_index else obj.index[-1]] *)
Definition last_of (return_index : bool) (i : index) : result pyval :=
  if return_index then index_last_ix i else index_last i.

Definition list_eqb (a b : list Z) : bool :=
  if list_eq_dec Z.eq_dec a b then true else false.

(** [obj.loc[x].index.get_level_values(-1)]: the times of the rows whose
    outer levels are [x]. *)
Definition loc_times (rows : list mlabel) (x : list Z) : list Z :=
  map time (filter (fun r => list_eqb (outer r) x) rows).

Definition objcols (d : dataframe) : list column :=
  filter (fun c => dtype_eqb (col_dtype c) DtObject) (df_columns d).

Definition get_cutoff_ndarray (a : ndarray) (cutoff : Z) (return_index : bool) : result pyval :=
  cutoff_ind <-
    (if Nat.eqb (ndim a) 3 then
       n <- shape_last a ;; Ok (Z.of_nat n + cutoff)
     else if Nat.ltb (ndim a) 3 && Nat.ltb 0 (ndim a) then
       n <- shape_first a ;; Ok (Z.of_nat n + cutoff)
     else Raise UnboundLocalError) ;;
  if return_index then Ok (PIndex (RangeIndex (cutoff_ind - 1) cutoff_ind))
  else Ok (PInt cutoff_ind).

Definition get_cutoff_nested (cols : list column) (return_index : bool) : result pyval :=
  idxx <- mapM (fun x => i <- cell_index x ;; last_of return_index i)
            (flat_map col_cells cols) ;;
  py_max idxx.

Definition get_cutoff_multiindex (rows : list mlabel) (return_index : bool) : result pyval :=
  let series_idx := map (fun r => Index (loc_times rows (outer r))) rows in
  cutoffs <- mapM (last_of return_index) series_idx ;;
  py_max cutoffs.

Definition get_cutoff_list (l : list dataframe) (return_index : bool) : result pyval :=
  idxs <- mapM (fun x => last_of return_index (df_index x)) l ;;
  py_max idxs.

Definition get_cutoff (obj : container) (cutoff : option Z) (return_index : bool) : result pyval :=
  let cutoff := match cutoff with None => 0 | Some c => c end in
  n <- py_len obj ;;
  if Nat.eqb n 0 then Ok (PInt cutoff)
  else
    match obj with
    | NdArr a => get_cutoff_ndarray a cutoff return_index
    | PdSeries s => last_of return_index (s_index s)
    | PdDataFrame d =>
        match df_index d with
        | Index _ =>
            match objcols d with
            | [] => last_of return_index (df_index d)
            | cols => get_cutoff_nested cols return_index
            end
        | MultiIndex _ rows => get_cutoff_multiindex rows return_index
        end
    | PyList l => get_cutoff_list l return_index
    | PyOther _ => Ok PNone
    end.

(** ** Slicing *)

(** A bound of a Python slice over a sequence of length [n]: a negative
    position counts from the end, and the result is clipped to [0..n]. *)
Definition slice_bound (n i : Z) : Z :=
  if i <? 0 then Z.max (i + n) 0 else Z.min i n.

(** [a[start:stop]], along the first axis; [a[start:]] when [stop] is [None]. *)
Definition nd_slice (a : ndarray) (start : Z) (stop : option Z) : result ndarray :=
  match shape a with
  | [] => Raise IndexError
  | n :: rest =>
      let lo := slice_bound (Z.of_nat n) start in
      let hi := match stop with
                | None => Z.of_nat n
                | Some s => slice_bound (Z.of_nat n) s
                end in
      let k := Z.to_nat (hi - lo) in
      Ok (NdArray (k :: rest)
            (firstn (k * stride a) (skipn (Z.to_nat lo * stride a) (data a))))
  end.

(** [l[mask]] for a boolean mask: the entries at the positions that hold. *)
Fixpoint select_mask {A : Type} (mask : list bool) (l : list A) : list A :=
  match mask, l with
  | b :: mask', x :: l' => if b then x :: select_mask mask' l' else select_mask mask' l'
  | _, _ => []
  end.

Definition index_iloc (i : index) (mask : list bool) : index :=
  match i with
  | Index vals => Index (select_mask mask vals)
  | MultiIndex names rows => MultiIndex names (select_mask mask rows)
  end.

(** [obj.iloc[mask]]: the rows where the mask holds, in every column. *)
Definition df_iloc (d : dataframe) (mask : list bool) : dataframe :=
  DataFrame (index_iloc (df_index d) mask)
    (map (fun c => Column (col_name c) (col_dtype c) (select_mask mask (col_cells c)))
       (df_columns d)).

(** ** [get_window] *)

Definition GET_LATEST_WINDOW_SUPPORTED_MTYPES : list string :=
  ["pd.DataFrame"; "pd-multiindex"; "pd_multiindex_hier"; "np.ndarray"; "numpy3D"]%string.

(** The branch of [get_window] for arrays. The source gives the first
    operand of the [max] that computes [window_end] and breaks off before
    the second: [window_end_operand] is that second operand. *)
Definition get_window_ndarray (window_end_operand : Z) (a : ndarray)
    (window_length lag : Z) : result ndarray :=
  obj_len <- nd_len a ;;
  let window_start := Z.max (- window_length - lag) (- Z.of_nat obj_len) in
  let window_end := Z.max (- lag) window_end_operand in
  if window_end =? 0 then nd_slice a window_start None
  else nd_slice a window_start (Some window_end).

(** [(time_indices > win_start_excl) & (time_indices <= win_end_incl)] *)
Definition win_select (time_indices : list Z) (win_start_excl win_end_incl : Z) : list bool :=
  map (fun t => (win_start_excl <? t) && (t <=? win_end_incl)) time_indices.

(** The branch of [get_window] for tables, up to [obj_subset]. *)
Definition get_window_dataframe (d : dataframe) (window_length lag : Z) : result dataframe :=
  c <- get_cutoff (PdDataFrame d) (Some 0) false ;;
  match c with
  | PInt cutoff =>
      let win_start_excl := cutoff - window_length - lag in
      let win_end_incl := cutoff - lag in
      let time_indices :=
        match df_index d with
        | Index vals => vals
        | MultiIndex _ _ => get_level_values_last (df_index d)
        end in
      Ok (df_iloc d (win_select time_indices win_start_excl win_end_incl))
  | _ => Raise TypeError
  end.

Section Window.

(** The collaborators of [sktime.datatypes]: [check_is_scitype] (for the
    scitypes Series, Panel and Hierarchical; [Some mtype] when valid) and
    [convert_to]; and the operand missing from the source. *)
Variable check_is_scitype : container -> option string.
Variable convert_to : container -> list string -> result container.
Variable window_end_operand : ndarray -> Z -> Z -> Z.

Definition get_window (obj : container) (window_length : option Z) (lag : Z)
  : result container :=
  match window_length with
  | None => Ok obj
  | Some w =>
      match check_is_scitype obj with
      | None => Raise ValueError
      | Some obj_in_mtype =>
          obj' <- convert_to obj GET_LATEST_WINDOW_SUPPORTED_MTYPES ;;
          match obj' with
          | NdArr a =>
              r <- get_window_ndarray (window_end_operand a w lag) a w lag ;;
              Ok (NdArr r)
          | PdDataFrame d =>
              obj_subset <- get_window_dataframe d w lag ;;
              convert_to (PdDataFrame obj_subset) [obj_in_mtype]
          | _ => Raise ValueError
          end
      end
  end.

End Window.

(** ** Notions the properties are stated with *)

(** The labels of an index, one per row; the label of a single-level index
    has the time alone. *)
Definition index_labels (i : index) : list mlabel :=
  match i with
  | Index vals => map (MLabel []) vals
  | MultiIndex _ rows => rows
  end.

(** The entries of a table, column by column: every cell with the label of
    its row. *)
Definition df_entries (d : dataframe) : list (list (mlabel * cell)) :=
  map (fun c => combine (index_labels (df_index d)) (col_cells c)) (df_columns d).

Definition df_header (d : dataframe) : list (string * dtype) :=
  map (fun c => (col_name c, col_dtype c)) (df_columns d).

(** [t] lies in the half-open interval from [lo] (excluded) to [hi]
    (included). *)
Definition in_window (lo hi t : Z) : bool := (lo <? t) && (t <=? hi).

(** [v] is the maximum of [l]. *)
Definition is_max (v : Z) (l : list Z) : Prop :=
  In v l /\ forall x, In x l -> x <= v.

(** The instances of a MultiIndex: the distinct values of all levels but the
    last; and the last time of one instance. *)
Definition instances (rows : list mlabel) : list (list Z) :=
  nodup (list_eq_dec Z.eq_dec) (map outer rows).

Definition instance_last (rows : list mlabel) (k : list Z) : Z :=
  last (map time (filter (fun r => list_eqb (outer r) k) rows)) 0.

(** The last index value of a table with a single-level index. *)
Definition table_last (d : dataframe) : Z :=
  match df_index d with
  | Index vals => last vals 0
  | MultiIndex _ rows => last (map time rows) 0
  end.

Definition single_level_nonempty (d : dataframe) : Prop :=
  exists vals, df_index d = Index vals /\ vals <> [].

(** The [n] trailing entries of a list. *)
Definition trailing {A : Type} (n : nat) (l : list A) : list A :=
  skipn (length l - n) l.

(** ** Stand-ins for the collaborators, to run [get_window] *)

(** The mtype of a container that is of a supported mtype already. *)
Definition sample_check_is_scitype (obj : container) : option string :=
  match obj with
  | NdArr a => Some (if Nat.eqb (ndim a) 3 then "numpy3D" else "np.ndarray")%string
  | PdDataFrame d =>
      Some (if is_multiindex (df_index d) then "pd-multiindex" else "pd.DataFrame")%string
  | PdSeries _ => Some "pd.Series"%string
  | PyList _ => Some "df-list"%string
  | PyOther _ => None
  end.

(** The conversions that change nothing: to a list of mtypes that has the
    mtype of the container. *)
Definition sample_convert_to (obj : container) (to_type : list string) : result container :=
  match sample_check_is_scitype obj with
  | Some m => if existsb (String.eqb m) to_type then Ok obj else Raise TypeError
  | None => Raise TypeError
  end.

(** The clamp of [window_start], as the second operand of [window_end]. *)
Definition sample_window_end_operand (a : ndarray) (window_length lag : Z) : Z :=
  - Z.of_nat (hd 0%nat (shape a)).

(** ** Concrete containers *)

Definition buffer10 : ndarray := NdArray [10%nat] (zrange 0 10).

Definition buffer2 : ndarray := NdArray [2%nat] [1; 2].

Definition empty_buffer : ndarray := NdArray [0%nat] [].

Definition table_of (vals : list Z) : dataframe :=
  DataFrame (Index vals) [Column "a" DtNumeric (map CNum vals)].

Definition ragged_tables : list dataframe :=
  [table_of (zrange 1 6); table_of (zrange 3 8); table_of [6]].

Definition panel_2x5 : dataframe :=
  DataFrame
    (MultiIndex ["instances"; "timepoints"]%string
       (map (MLabel [0]) (zrange 0 5) ++ map (MLabel [1]) (zrange 0 5)))
    [Column "a" DtNumeric (map CNum (zrange 0 10))].

Definition nested_table : dataframe :=
  DataFrame (Index [0; 1])
    [Column "dim_0" DtObject [CSeries (Index [0; 1; 2]) [5; 6; 7];
                              CSeries (Index [0; 1; 2]) [8; 9; 10]]].

(** ** Multi-instance containers *)

(** A non-empty multi-instance container: a list of tables, each with a
    single-level index of at least one value; or a table with a MultiIndex. *)
Definition multi_instance (obj : container) : Prop :=
  match obj with
  | PyList l => l <> [] /\ Forall single_level_nonempty l
  | PdDataFrame d =>
      match df_index d with
      | MultiIndex _ rows => rows <> []
      | Index _ => False
      end
  | _ => False
  end.

(** The last time-index value of every instance. *)
Definition instance_lasts (obj : container) : list Z :=
  match obj with
  | PyList l => map table_last l
  | PdDataFrame d =>
      match df_index d with
      | MultiIndex _ rows => map (instance_last rows) (instances rows)
      | Index _ => []
      end
  | _ => []
  end.

(** ** Table-form containers *)

(** A table that [get_window] slices as it is: of a mtype [m] among the
    supported ones, so that the conversion to those leaves it unchanged, as
    does the conversion of a selection of its rows back to [m]. *)
Definition table_form (check_is_scitype : container -> option string)
    (convert_to : container -> list string -> result container)
    (d : dataframe) (m : string) : Prop :=
  check_is_scitype (PdDataFrame d) = Some m /\
  convert_to (PdDataFrame d) GET_LATEST_WINDOW_SUPPORTED_MTYPES = Ok (PdDataFrame d) /\
  forall mask,
    convert_to (PdDataFrame (df_iloc d mask)) [m] = Ok (PdDataFrame (df_iloc d mask)).

(** ** An index element and its index *)

(** The index element and the index of one entry that wraps it. *)
Inductive wraps : pyval -> pyval -> Prop :=
| wraps_scalar (v : Z) : wraps (PInt v) (PIndex (Index [v]))
| wraps_tuple (names : list string) (r : mlabel) :
    wraps (PTuple (mtuple r)) (PIndex (MultiIndex names [r])).

(** ** Further notions *)

(** The Series-scitype objects that [get_index_for_series] is for, when not
    empty: a series, a table with a single-level index and no nested cells,
    an array of one or two dimensions. *)
Definition series_like (obj : container) : Prop :=
  match obj with
  | PdSeries s => index_len (s_index s) <> 0%nat
  | PdDataFrame d =>
      is_multiindex (df_index d) = false /\ objcols d = [] /\
      index_len (df_index d) <> 0%nat
  | NdArr a =>
      (ndim a = 1%nat \/ ndim a = 2%nat) /\ hd 0%nat (shape a) <> 0%nat
  | _ => False
  end.

(** A table without nested cells: with a MultiIndex, or with no column of
    object dtype. *)
Definition plain_table (d : dataframe) : Prop :=
  is_multiindex (df_index d) = true \/ objcols d = [].

(** The nested cells of a table, and the last index value of one. *)
Definition nested_cells (d : dataframe) : list cell :=
  flat_map col_cells (objcols d).

Definition cell_last (x : cell) : Z :=
  match x with
  | CSeries (Index vals) _ => last vals 0
  | _ => 0
  end.

Definition nested_series_nonempty (x : cell) : Prop :=
  exists vals vs, x = CSeries (Index vals) vs /\ vals <> [].

(** A non-empty nested table: a single-level index, at least one column of
    object dtype, and in these columns only series with at least one index
    value. *)
Definition nested_panel (d : dataframe) : Prop :=
  is_multiindex (df_index d) = false /\
  index_len (df_index d) <> 0%nat /\
  objcols d <> [] /\
  Forall nested_series_nonempty (nested_cells d).

Fixpoint nondecreasing (l : list Z) : bool :=
  match l with
  | [] => true
  | x :: l' =>
      match l' with
      | [] => true
      | y :: _ => (x <=? y) && nondecreasing l'
      end
  end.

(** The times of every instance are in non-decreasing order. The labels of
    a single-level index form one instance. *)
Definition instances_sorted (d : dataframe) : Prop :=
  forall g, nondecreasing (loc_times (index_labels (df_index d)) g) = true.

(** A MultiIndex of two levels, the first one named instances. *)
Definition two_level (names : list string) (rows : list mlabel) : Prop :=
  (exists tname, names = ["instances"%string; tname]) /\
  Forall (fun r => length (outer r) = 1%nat) rows.

(** Every instance has the times [T]. *)
Definition shared_time_index (rows : list mlabel) (T : list Z) : Prop :=
  forall r, In r rows -> loc_times rows (outer r) = T.

(** ** Further concrete containers *)

Definition series_3 : series := Series (Index [3; 4; 5]) [CNum 7; CNum 8; CNum 9].

Definition buffer_2x3 : ndarray := NdArray [2%nat; 3%nat] [1; 2; 3; 4; 5; 6].

Definition buffer_4d : ndarray := NdArray [1%nat; 1%nat; 1%nat; 1%nat] [0].

Definition unnamed_panel : dataframe :=
  DataFrame (MultiIndex ["id"; "time"]%string [MLabel [0] 0; MLabel [0] 1])
    [Column "a" DtNumeric [CNum 1; CNum 2]].

Definition panel_2x5_window_2_1 : dataframe :=
  DataFrame
    (MultiIndex ["instances"; "timepoints"]%string
       [MLabel [0] 2; MLabel [0] 3; MLabel [1] 2; MLabel [1] 3])
    [Column "a" DtNumeric [CNum 2; CNum 3; CNum 7; CNum 8]].

Definition panel_2x5_window_2_0 : dataframe :=
  DataFrame
    (MultiIndex ["instances"; "timepoints"]%string
       [MLabel [0] 3; MLabel [0] 4; MLabel [1] 3; MLabel [1] 4])
    [Column "a" DtNumeric [CNum 3; CNum 4; CNum 8; CNum 9]].

Fixpoint increasing (l : list Z) : bool :=
  match l with
  | [] => true
  | x :: l' =>
      match l' with
      | [] => true
      | y :: _ => (x <? y) && increasing l'
      end
  end.

(** * Properties *)

(** ** Lists and maxima *)

Lemma rev_head_last {A : Type} (l : list A) (d x : A) (t : list A) :
  rev l = x :: t -> last l d = x.
Proof.
  intros H.
  assert (E : l = rev t ++ [x]).
  { rewrite <- (rev_involutive l), H. reflexivity. }
  rewrite E. apply last_last.
Qed.

Lemma rev_nil_inv {A : Type} (l : list A) : rev l = [] -> l = [].
Proof.
  intros H. rewrite <- (rev_involutive l), H. reflexivity.
Qed.

Lemma index_last_nonempty (vals : list Z) :
  vals <> [] -> index_last (Index vals) = Ok (PInt (last vals 0)).
Proof.
  intros Hne. unfold index_last.
  destruct (rev vals) as [|v t] eqn:E.
  - apply rev_nil_inv in E. contradiction.
  - rewrite (rev_head_last vals 0 v t E). reflexivity.
Qed.

Lemma index_last_ix_nonempty (vals : list Z) :
  vals <> [] -> index_last_ix (Index vals) = Ok (PIndex (Index [last vals 0])).
Proof.
  intros Hne. unfold index_last_ix.
  destruct (rev vals) as [|v t] eqn:E.
  - apply rev_nil_inv in E. contradiction.
  - rewrite (rev_head_last vals 0 v t E). reflexivity.
Qed.

Lemma mapM_ok {A B : Type} (f : A -> result B) (g : A -> B) (l : list A) :
  (forall x, In x l -> f x = Ok (g x)) -> mapM f l = Ok (map g l).
Proof.
  induction l as [|x l IH]; intros H; simpl.
  - reflexivity.
  - rewrite (H x (or_introl eq_refl)). simpl.
    rewrite IH by (intros y Hy; apply H; right; exact Hy).
    reflexivity.
Qed.

Lemma mapM_map {A B C : Type} (h : A -> B) (f : B -> result C) (l : list A) :
  mapM f (map h l) = mapM (fun x => f (h x)) l.
Proof.
  induction l as [|x l IH]; simpl; [reflexivity|].
  rewrite IH. reflexivity.
Qed.

Lemma py_max_from_ints (l : list Z) (m : Z) :
  py_max_from (PInt m) (map PInt l) = Ok (PInt (fold_left Z.max l m)).
Proof.
  revert m. induction l as [|x l IH]; intros m; simpl.
  - reflexivity.
  - destruct (m <? x) eqn:E.
    + rewrite IH. f_equal. f_equal. f_equal. apply Z.ltb_lt in E. lia.
    + rewrite IH. f_equal. f_equal. f_equal. apply Z.ltb_ge in E. lia.
Qed.

Lemma fold_max_is_max (l : list Z) (m : Z) :
  is_max (fold_left Z.max l m) (m :: l).
Proof.
  revert m. induction l as [|x l IH]; intros m; simpl.
  - split; [left; reflexivity | intros y [<-|[]]; lia].
  - destruct (IH (Z.max m x)) as [Hin Hub]. split.
    + destruct Hin as [Hin|Hin].
      * rewrite <- Hin. destruct (Z.max_spec m x) as [[_ ->]|[_ ->]]; simpl; auto.
      * right; right; exact Hin.
    + intros y [<-|[<-|Hy]].
      * specialize (Hub (Z.max m x) (or_introl eq_refl)). lia.
      * specialize (Hub (Z.max m x) (or_introl eq_refl)). lia.
      * apply Hub. right; exact Hy.
Qed.

Lemma py_max_ints (l : list Z) :
  l <> [] -> exists v, py_max (map PInt l) = Ok (PInt v) /\ is_max v l.
Proof.
  destruct l as [|m l]; intros Hne; [contradiction|].
  exists (fold_left Z.max l m). split.
  - simpl. apply py_max_from_ints.
  - apply fold_max_is_max.
Qed.

Lemma is_max_same_elements (v : Z) (l l' : list Z) :
  (forall x, In x l <-> In x l') -> is_max v l -> is_max v l'.
Proof.
  intros H [Hin Hub]. split.
  - apply H, Hin.
  - intros x Hx. apply Hub, H, Hx.
Qed.

Lemma is_max_unique (v v' : Z) (l : list Z) :
  is_max v l -> is_max v' l -> v = v'.
Proof.
  intros [H1 H2] [H3 H4]. specialize (H2 _ H3). specialize (H4 _ H1). lia.
Qed.

Lemma list_eqb_eq (a b : list Z) : list_eqb a b = true <-> a = b.
Proof.
  unfold list_eqb. destruct (list_eq_dec Z.eq_dec a b); split; intros; congruence.
Qed.

Lemma loc_times_nonempty (rows : list mlabel) (r : mlabel) :
  In r rows -> loc_times rows (outer r) <> [].
Proof.
  intros Hin Hnil. unfold loc_times in Hnil.
  apply map_eq_nil in Hnil.
  assert (Hf : In r (filter (fun r' => list_eqb (outer r') (outer r)) rows)).
  { apply filter_In. split; [exact Hin | apply list_eqb_eq; reflexivity]. }
  rewrite Hnil in Hf. exact Hf.
Qed.

(** ** The cutoff of a multi-instance container *)

Lemma get_cutoff_multiindex_scalar (rows : list mlabel) :
  rows <> [] ->
  exists v, get_cutoff_multiindex rows false = Ok (PInt v) /\
            is_max v (map (instance_last rows) (instances rows)).
Proof.
  intros Hne. unfold get_cutoff_multiindex. cbv zeta.
  rewrite mapM_map.
  rewrite (mapM_ok _ (fun r => PInt (instance_last rows (outer r)))).
  2:{ intros r Hr. unfold last_of.
      rewrite index_last_nonempty by (apply loc_times_nonempty; exact Hr).
      reflexivity. }
  simpl. rewrite <- (map_map (fun r => instance_last rows (outer r)) PInt).
  destruct (py_max_ints (map (fun r => instance_last rows (outer r)) rows))
    as [v [Hv Hmax]].
  { destruct rows; [contradiction | discriminate]. }
  exists v. split; [exact Hv|].
  apply (is_max_same_elements v (map (fun r => instance_last rows (outer r)) rows));
    [|exact Hmax].
  intros x. unfold instances. rewrite !in_map_iff. split.
  - intros [r [<- Hr]]. exists (outer r). split; [reflexivity|].
    apply nodup_In. apply in_map. exact Hr.
  - intros [k [<- Hk]]. apply nodup_In in Hk. apply in_map_iff in Hk.
    destruct Hk as [r [<- Hr]]. exists r. split; [reflexivity | exact Hr].
Qed.

Lemma get_cutoff_list_scalar (l : list dataframe) :
  l <> [] -> Forall single_level_nonempty l ->
  exists v, get_cutoff_list l false = Ok (PInt v) /\ is_max v (map table_last l).
Proof.
  intros Hne Hall. unfold get_cutoff_list.
  rewrite (mapM_ok _ (fun d => PInt (table_last d))).
  2:{ intros d Hd. rewrite Forall_forall in Hall.
      destruct (Hall d Hd) as [vals [Hi Hv]].
      unfold last_of, table_last. rewrite Hi. apply index_last_nonempty, Hv. }
  simpl. rewrite <- (map_map table_last PInt).
  apply py_max_ints. destruct l; [contradiction | discriminate].
Qed.

(** C3. The cutoff of a non-empty multi-instance container is the maximum,
    over its instances, of the last time-index value of the instance: for a
    list of tables the instances are the tables; for a table with a
    MultiIndex they are the groups of rows that agree on all index levels
    but the last. Instances may differ in length. *)
Theorem get_cutoff_multi_instance_is_max_of_lasts
    (obj : container) (cutoff : option Z) :
  multi_instance obj ->
  exists v, get_cutoff obj cutoff false = Ok (PInt v) /\
            is_max v (instance_lasts obj).
Proof.
  destruct obj as [a|s|d|l|len]; simpl; try contradiction.
  - destruct d as [[vals|names rows] cols]; simpl; [contradiction|].
    intros Hne. unfold get_cutoff. simpl.
    destruct rows as [|r rows]; [contradiction|]. simpl Nat.eqb. cbv iota.
    apply get_cutoff_multiindex_scalar. discriminate.
  - intros [Hne Hall]. unfold get_cutoff. simpl.
    destruct l as [|d l]; [contradiction|]. simpl Nat.eqb. cbv iota.
    apply get_cutoff_list_scalar; assumption.
Qed.

Lemma ragged_tables_multi_instance : multi_instance (PyList ragged_tables).
Proof.
  split; [discriminate|].
  repeat constructor; eexists; (split; [reflexivity | discriminate]).
Qed.

Lemma get_cutoff_multi_instance_is_max_of_lasts_witness :
  multi_instance (PyList ragged_tables) /\
  exists v, get_cutoff (PyList ragged_tables) (Some 0) false = Ok (PInt v) /\
            is_max v (instance_lasts (PyList ragged_tables)).
Proof.
  split.
  - exact ragged_tables_multi_instance.
  - apply (get_cutoff_multi_instance_is_max_of_lasts (PyList ragged_tables) (Some 0)).
    exact ragged_tables_multi_instance.
Defined.

(** Three tables that end at 5, 7 and 6 have the cutoff 7; two instances
    over the times 0..4 have the cutoff 4. *)
Example get_cutoff_ragged_tables :
  get_cutoff (PyList ragged_tables) (Some 0) false = Ok (PInt 7) /\
  get_cutoff (PdDataFrame panel_2x5) (Some 0) false = Ok (PInt 4).
Proof. split; reflexivity. Qed.

(** ** The cutoff of an array *)

(** C4. The scalar cutoff of a non-empty array is the offset plus the size
    of the last dimension when the array has 3 dimensions, and the offset
    plus the size of the first dimension when it has 1 or 2; 10 for a 1-D
    array of 10 elements at offset 0 (the witness). *)
Theorem get_cutoff_ndarray_scalar
    (a : ndarray) (n : nat) (rest : list nat) (offset : Z) :
  shape a = n :: rest -> (0 < n)%nat ->
  (ndim a = 3%nat ->
     get_cutoff (NdArr a) (Some offset) false
       = Ok (PInt (offset + Z.of_nat (last (shape a) 0%nat)))) /\
  (ndim a = 1%nat \/ ndim a = 2%nat ->
     get_cutoff (NdArr a) (Some offset) false = Ok (PInt (offset + Z.of_nat n))).
Proof.
  intros Hs Hn. destruct a as [sh dt]. simpl in Hs. subst sh.
  assert (Hz : Nat.eqb n 0 = false) by (apply Nat.eqb_neq; lia).
  unfold get_cutoff, ndim. simpl. rewrite Hz. split.
  - intros Hd. destruct rest as [|m [|k [|j rest]]]; simpl in Hd; try lia.
    unfold get_cutoff_ndarray, ndim, shape_last. simpl.
    f_equal. f_equal. lia.
  - intros Hd. unfold get_cutoff_ndarray, ndim, shape_first. simpl.
    destruct rest as [|m [|k rest]]; simpl in *; try lia;
      f_equal; f_equal; lia.
Qed.

Lemma get_cutoff_ndarray_scalar_witness :
  get_cutoff (NdArr buffer10) (Some 0) false = Ok (PInt 10).
Proof.
  refine (proj2 (get_cutoff_ndarray_scalar buffer10 10 [] 0 eq_refl _) _).
  - lia.
  - left. reflexivity.
Defined.

(** ** The cutoff of an empty container, and of an object of no handled
    type *)

(** C5. For an empty container and every offset [k], [get_cutoff] returns
    the scalar [k], also when an index is asked for. *)
Theorem get_cutoff_empty (obj : container) (k : Z) (return_index : bool) :
  py_len obj = Ok 0%nat ->
  get_cutoff obj (Some k) return_index = Ok (PInt k).
Proof.
  intros H. unfold get_cutoff. rewrite H. reflexivity.
Qed.

Lemma get_cutoff_empty_witness :
  get_cutoff (NdArr empty_buffer) (Some 3) true = Ok (PInt 3).
Proof.
  apply (get_cutoff_empty (NdArr empty_buffer) 3 true). reflexivity.
Defined.

(** An offset of [None] counts as 0. *)
Lemma get_cutoff_no_offset_of_empty (obj : container) (return_index : bool) :
  py_len obj = Ok 0%nat ->
  get_cutoff obj None return_index = Ok (PInt 0).
Proof.
  intros H. unfold get_cutoff. rewrite H. reflexivity.
Qed.

(** C6. For a non-empty object that is no array, no series, no table and no
    list, [get_cutoff] returns [None] and raises nothing. *)
Theorem get_cutoff_unhandled_type_returns_None
    (n : nat) (cutoff : option Z) (return_index : bool) :
  (0 < n)%nat ->
  get_cutoff (PyOther (Some n)) cutoff return_index = Ok PNone.
Proof.
  intros Hn. unfold get_cutoff. simpl.
  destruct n; [lia | reflexivity].
Qed.

Lemma get_cutoff_unhandled_type_returns_None_witness :
  get_cutoff (PyOther (Some 2%nat)) (Some 0) false = Ok PNone.
Proof.
  apply (get_cutoff_unhandled_type_returns_None 2 (Some 0) false). lia.
Defined.

(** ** The cutoff as an index and as a scalar *)

Lemma zrange_one (v : Z) : zrange (v - 1) v = [v - 1].
Proof.
  unfold zrange. replace (v - (v - 1)) with 1 by lia. simpl.
  f_equal. lia.
Qed.

(** For an array the index that is returned holds the value one below the
    scalar that is returned. *)
Lemma get_cutoff_ndarray_index_below_scalar (a : ndarray) (cutoff v : Z) :
  get_cutoff_ndarray a cutoff false = Ok (PInt v) ->
  get_cutoff_ndarray a cutoff true = Ok (PIndex (Index [v - 1])).
Proof.
  unfold get_cutoff_ndarray.
  destruct (if Nat.eqb (ndim a) 3 then _ else _) as [c|e]; simpl; [|discriminate].
  intros H. injection H as <-. unfold RangeIndex. rewrite zrange_one. reflexivity.
Qed.

(** C1, at an array of 10 elements: asked for an index, [get_cutoff]
    returns the index of the one value 9; asked for a scalar, it returns 10.
    [get_index_for_series] gives the same array the index 0..9, of which 9
    is the latest time point. *)
Theorem get_cutoff_ndarray_index_differs_from_scalar :
  get_cutoff (NdArr buffer10) (Some 0) true = Ok (PIndex (Index [9])) /\
  get_cutoff (NdArr buffer10) (Some 0) false = Ok (PInt 10) /\
  get_index_for_series (NdArr buffer10) 0 = Ok (Index (zrange 0 10)).
Proof. repeat split. Qed.

Lemma last_of_wraps (i : index) (s : pyval) :
  last_of false i = Ok s -> exists w, last_of true i = Ok w /\ wraps s w.
Proof.
  unfold last_of, index_last, index_last_ix.
  destruct i as [vals|names rows].
  - destruct (rev vals); [discriminate|]. intros H. injection H as <-.
    eexists. split; [reflexivity | constructor].
  - destruct (rev rows); [discriminate|]. intros H. injection H as <-.
    eexists. split; [reflexivity | constructor].
Qed.

Lemma py_gt_wraps (s1 s2 w1 w2 : pyval) (b : bool) :
  wraps s1 w1 -> wraps s2 w2 -> py_gt s1 s2 = Ok b -> py_gt w1 w2 = Ok b.
Proof.
  intros H1 H2. destruct H1; destruct H2; simpl; intros H;
    try discriminate; exact H.
Qed.

Lemma py_max_from_wraps (ls lw : list pyval) :
  Forall2 wraps ls lw ->
  forall m mw r, wraps m mw -> py_max_from m ls = Ok r ->
  exists rw, py_max_from mw lw = Ok rw /\ wraps r rw.
Proof.
  induction 1 as [|s w ls lw Hsw Hall IH]; intros m mw r Hm; simpl.
  - intros H. injection H as <-. exists mw. split; [reflexivity | exact Hm].
  - destruct (py_gt s m) as [b|e] eqn:E; simpl; [|discriminate].
    rewrite (py_gt_wraps _ _ _ _ _ Hsw Hm E). simpl.
    apply IH. destruct b; assumption.
Qed.

Lemma py_max_wraps (ls lw : list pyval) (r : pyval) :
  Forall2 wraps ls lw -> py_max ls = Ok r ->
  exists rw, py_max lw = Ok rw /\ wraps r rw.
Proof.
  intros H. destruct H as [|s w ls lw Hsw Hall]; simpl; [discriminate|].
  apply py_max_from_wraps; assumption.
Qed.

Lemma mapM_wraps {A : Type} (f g : A -> result pyval) (l : list A) :
  (forall x s, f x = Ok s -> exists w, g x = Ok w /\ wraps s w) ->
  forall ls, mapM f l = Ok ls ->
  exists lw, mapM g l = Ok lw /\ Forall2 wraps ls lw.
Proof.
  intros Hfg. induction l as [|x l IH]; simpl; intros ls H.
  - injection H as <-. exists []. split; [reflexivity | constructor].
  - destruct (f x) as [s|e] eqn:E; simpl in H; [|discriminate].
    destruct (mapM f l) as [ls'|e] eqn:E'; simpl in H; [|discriminate].
    injection H as <-.
    destruct (Hfg x s E) as [w [Hw Hsw]].
    destruct (IH ls' eq_refl) as [lw [Hlw Hall]].
    rewrite Hw, Hlw. simpl. eexists. split; [reflexivity|].
    constructor; assumption.
Qed.

Lemma mapM_last_of_wraps {A : Type} (h : A -> result index) (l : list A)
    (r : pyval) :
  (idxs <- mapM (fun x => i <- h x ;; last_of false i) l ;; py_max idxs) = Ok r ->
  exists rw,
    (idxs <- mapM (fun x => i <- h x ;; last_of true i) l ;; py_max idxs) = Ok rw /\
    wraps r rw.
Proof.
  assert (Hfg : forall x s, (i <- h x ;; last_of false i) = Ok s ->
                 exists w, (i <- h x ;; last_of true i) = Ok w /\ wraps s w).
  { intros x s. destruct (h x) as [i|e]; simpl; [|discriminate].
    apply last_of_wraps. }
  destruct (mapM (fun x => i <- h x ;; last_of false i) l) as [ls|e] eqn:E;
    unfold bind at 1; [|discriminate].
  intros Hmax.
  destruct (mapM_wraps _ _ l Hfg ls E) as [lw [Hlw Hall]].
  rewrite Hlw. unfold bind at 1. apply (py_max_wraps ls lw); assumption.
Qed.

(** For a non-empty series, table or list of tables, when [get_cutoff]
    returns an index element, it returns for [return_index=True] the index
    of that one element. *)
Lemma get_cutoff_index_wraps_element (obj : container) (cutoff : option Z)
    (r : pyval) :
  (forall a, obj <> NdArr a) ->
  py_len obj <> Ok 0%nat ->
  r <> PNone ->
  get_cutoff obj cutoff false = Ok r ->
  exists w, get_cutoff obj cutoff true = Ok w /\ wraps r w.
Proof.
  intros Hna Hlen Hr. unfold get_cutoff.
  destruct (py_len obj) as [n|e] eqn:El; simpl; [|discriminate].
  destruct (Nat.eqb n 0) eqn:En.
  { apply Nat.eqb_eq in En. subst n. contradiction. }
  destruct obj as [a|s|d|l|len].
  - exfalso. apply (Hna a). reflexivity.
  - apply last_of_wraps.
  - destruct (df_index d) as [vals|names rows] eqn:Ei.
    + destruct (objcols d) as [|c cols].
      * apply last_of_wraps.
      * unfold get_cutoff_nested. apply (mapM_last_of_wraps cell_index).
    + unfold get_cutoff_multiindex. cbv zeta. rewrite !mapM_map.
      apply (mapM_last_of_wraps (fun r0 => Ok (Index (loc_times rows (outer r0))))).
  - unfold get_cutoff_list.
    apply (mapM_last_of_wraps (fun x => Ok (df_index x))).
  - intros H. injection H as <-. contradiction.
Qed.

(** X1. For a non-empty series, table or list of tables: when [get_cutoff]
    returns the scalar [v], it returns for [return_index=True] the index of
    the one value [v]. *)
Lemma get_cutoff_index_wraps_scalar (obj : container) (cutoff : option Z) (v : Z) :
  (forall a, obj <> NdArr a) ->
  py_len obj <> Ok 0%nat ->
  get_cutoff obj cutoff false = Ok (PInt v) ->
  get_cutoff obj cutoff true = Ok (PIndex (Index [v])).
Proof.
  intros Hna Hlen H.
  destruct (get_cutoff_index_wraps_element obj cutoff (PInt v) Hna Hlen)
    as [w [Hw Hwr]]; [discriminate | exact H |].
  inversion Hwr; subst. exact Hw.
Qed.

(** ** [get_time_index] *)

Lemma index_len_RangeIndex (n : nat) : index_len (RangeIndex 0 (Z.of_nat n)) = n.
Proof.
  unfold RangeIndex, zrange. simpl.
  rewrite length_map, length_seq. lia.
Qed.

(** C10. For a table [X] with a single-level index, [get_time_index]
    returns what the first cell of [X] gives: the index of the cell when it
    is a series; a range as long as the last dimension of the cell when it
    is an array. The row index of [X] plays no part, and a first cell that
    is a plain number raises. *)
Theorem get_time_index_single_level_table
    (vals : list Z) (name : string) (dt : dtype) (x : cell) (cells : list cell)
    (cols : list column) :
  let X := fun vals' =>
    PdDataFrame (DataFrame (Index vals') (Column name dt (x :: cells) :: cols)) in
  get_time_index (X vals) = _get_index x /\
  match x with
  | CSeries idx _ => get_time_index (X vals) = Ok idx
  | CArray a =>
      match rev (shape a) with
      | n :: _ =>
          get_time_index (X vals) = Ok (RangeIndex 0 (Z.of_nat n)) /\
          index_len (RangeIndex 0 (Z.of_nat n)) = n
      | [] => get_time_index (X vals) = Raise IndexError
      end
  | CNum _ => get_time_index (X vals) = Raise IndexError
  end /\
  forall vals', get_time_index (X vals') = get_time_index (X vals).
Proof.
  intros X. split; [reflexivity|]. split; [|reflexivity].
  destruct x as [v|idx vs|a]; try reflexivity.
  unfold X, get_time_index, _get_index, _get_index_array, shape_last. simpl.
  destruct (rev (shape a)) as [|n t]; [reflexivity|].
  split; [reflexivity | apply index_len_RangeIndex].
Qed.

(** A table with no column or no row has no first cell. *)
Lemma get_time_index_no_first_cell (d : dataframe) (vals : list Z) :
  df_index d = Index vals ->
  iloc_0_0 d = Raise IndexError ->
  get_time_index (PdDataFrame d) = Raise IndexError.
Proof.
  intros Hi Hc. unfold get_time_index. rewrite Hi, Hc. reflexivity.
Qed.

(** C9, at a table of plain numbers with a single-level index, one of the
    mtypes the docstring names: [get_time_index] raises [IndexError] and
    returns no index. *)
Theorem get_time_index_plain_table_raises :
  get_time_index (PdDataFrame (table_of [1; 2])) = Raise IndexError /\
  get_time_index (PdSeries (Series (Index [1; 2]) [CNum 1; CNum 2])) = Raise IndexError.
Proof. split; reflexivity. Qed.

(** An object that is no table, no series and no array raises [ValueError]. *)
Lemma get_time_index_unsupported (X : container) :
  (forall a, X <> NdArr a) -> (forall s, X <> PdSeries s) ->
  (forall d, X <> PdDataFrame d) ->
  get_time_index X = Raise ValueError.
Proof.
  intros Ha Hs Hd. destruct X; try reflexivity.
  - exfalso. apply (Ha a). reflexivity.
  - exfalso. apply (Hs s). reflexivity.
  - exfalso. apply (Hd d). reflexivity.
Qed.

(** The shapes on which [get_time_index] returns an index: a nested first
    cell, a MultiIndex with a level named instances, an array of at least
    one dimension. *)
Example get_time_index_supported :
  get_time_index (PdDataFrame nested_table) = Ok (Index [0; 1; 2]) /\
  get_time_index (PdDataFrame panel_2x5) = Ok (Index [0; 1; 2; 3; 4]) /\
  get_time_index (NdArr buffer10) = Ok (Index (zrange 0 10)).
Proof. repeat split. Qed.

(** ** The window of a table *)

Lemma in_window_spec (lo hi t : Z) : in_window lo hi t = true <-> lo < t <= hi.
Proof.
  unfold in_window. rewrite andb_true_iff, Z.ltb_lt, Z.leb_le. tauto.
Qed.

Lemma select_mask_filter {A : Type} (p : A -> bool) (l : list A) :
  select_mask (map p l) l = filter p l.
Proof.
  induction l as [|x l IH]; simpl; [reflexivity|].
  rewrite IH. reflexivity.
Qed.

Lemma select_mask_map {A B : Type} (g : A -> B) (mask : list bool) (l : list A) :
  select_mask mask (map g l) = map g (select_mask mask l).
Proof.
  revert l. induction mask as [|b mask IH]; intros [|x l]; simpl; try reflexivity.
  destruct b; simpl; rewrite IH; reflexivity.
Qed.

Lemma select_mask_combine {A B : Type} (p : A -> bool) (l : list A) (c : list B) :
  combine (select_mask (map p l) l) (select_mask (map p l) c)
  = filter (fun e => p (fst e)) (combine l c).
Proof.
  revert c. induction l as [|x l IH]; intros [|y c]; simpl; try reflexivity.
  - apply combine_nil.
  - destruct (p x); simpl; rewrite IH; reflexivity.
Qed.

(** The mask that [get_window] computes from the time indices is the window
    test on the labels of the rows. *)
Lemma win_select_labels (i : index) (lo hi : Z) :
  win_select (get_level_values_last i) lo hi
  = map (fun l => in_window lo hi (time l)) (index_labels i).
Proof.
  unfold win_select, in_window. destruct i as [vals|names rows]; simpl.
  - rewrite map_map. reflexivity.
  - rewrite map_map. reflexivity.
Qed.

Lemma index_labels_iloc (i : index) (mask : list bool) :
  index_labels (index_iloc i mask) = select_mask mask (index_labels i).
Proof.
  destruct i as [vals|names rows]; simpl; [|reflexivity].
  symmetry. apply select_mask_map.
Qed.

Lemma get_window_dataframe_eq (d : dataframe) (w lag tc : Z) :
  get_cutoff (PdDataFrame d) (Some 0) false = Ok (PInt tc) ->
  get_window_dataframe d w lag
  = Ok (df_iloc d (map (fun l => in_window (tc - w - lag) (tc - lag) (time l))
                     (index_labels (df_index d)))).
Proof.
  intros Hc. unfold get_window_dataframe. rewrite Hc. simpl.
  rewrite <- win_select_labels. destruct (df_index d); reflexivity.
Qed.

Lemma df_iloc_window_entries (d : dataframe) (lo hi : Z) :
  let s := df_iloc d (map (fun l => in_window lo hi (time l)) (index_labels (df_index d))) in
  index_labels (df_index s)
    = filter (fun l => in_window lo hi (time l)) (index_labels (df_index d)) /\
  df_header s = df_header d /\
  df_entries s
    = map (filter (fun e => in_window lo hi (time (fst e)))) (df_entries d).
Proof.
  intros s. unfold s, df_entries, df_header. simpl.
  rewrite index_labels_iloc. split; [apply select_mask_filter|]. split.
  - rewrite map_map. reflexivity.
  - rewrite !map_map. apply map_ext. intros c. simpl.
    apply (select_mask_combine (fun l => in_window lo hi (time l))).
Qed.

(** C2. For a table-form container with the cutoff [tc] (at offset 0),
    [get_window] with window length [w] and lag [L] returns the table of
    exactly the entries whose time lies in the half-open interval from
    [tc - w - L], excluded, to [tc - L], included: the row labels, and the
    entries of every column, are those of the container that pass the test,
    in their order. *)
Theorem get_window_table_half_open
    (check_is_scitype : container -> option string)
    (convert_to : container -> list string -> result container)
    (window_end_operand : ndarray -> Z -> Z -> Z)
    (d : dataframe) (m : string) (w L tc : Z) :
  table_form check_is_scitype convert_to d m ->
  get_cutoff (PdDataFrame d) (Some 0) false = Ok (PInt tc) ->
  exists s,
    get_window check_is_scitype convert_to window_end_operand
      (PdDataFrame d) (Some w) L = Ok (PdDataFrame s) /\
    index_labels (df_index s)
      = filter (fun l => in_window (tc - w - L) (tc - L) (time l))
          (index_labels (df_index d)) /\
    df_header s = df_header d /\
    df_entries s
      = map (filter (fun e => in_window (tc - w - L) (tc - L) (time (fst e))))
          (df_entries d) /\
    forall t, in_window (tc - w - L) (tc - L) t = true <-> tc - w - L < t <= tc - L.
Proof.
  intros [Hm [Hto Hback]] Hc.
  eexists. split.
  - unfold get_window. rewrite Hm, Hto. simpl.
    rewrite (get_window_dataframe_eq d w L tc Hc). simpl. apply Hback.
  - pose proof (df_iloc_window_entries d (tc - w - L) (tc - L)) as [H1 [H2 H3]].
    split; [exact H1|]. split; [exact H2|]. split; [exact H3|].
    intros t. apply in_window_spec.
Qed.

Lemma sample_table_form (d : dataframe) :
  table_form sample_check_is_scitype sample_convert_to d
    (if is_multiindex (df_index d) then "pd-multiindex" else "pd.DataFrame")%string.
Proof.
  unfold table_form, sample_convert_to, sample_check_is_scitype.
  split; [reflexivity|]. split.
  - destruct (is_multiindex (df_index d)); reflexivity.
  - intros mask. simpl.
    replace (is_multiindex (index_iloc (df_index d) mask))
      with (is_multiindex (df_index d)) by (destruct (df_index d); reflexivity).
    rewrite String.eqb_refl. reflexivity.
Qed.

Lemma get_window_table_half_open_witness :
  exists s,
    get_window sample_check_is_scitype sample_convert_to sample_window_end_operand
      (PdDataFrame panel_2x5) (Some 2) 1 = Ok (PdDataFrame s) /\
    index_labels (df_index s)
      = filter (fun l => in_window (4 - 2 - 1) (4 - 1) (time l))
          (index_labels (df_index panel_2x5)) /\
    df_header s = df_header panel_2x5 /\
    df_entries s
      = map (filter (fun e => in_window (4 - 2 - 1) (4 - 1) (time (fst e))))
          (df_entries panel_2x5) /\
    forall t, in_window (4 - 2 - 1) (4 - 1) t = true <-> 4 - 2 - 1 < t <= 4 - 1.
Proof.
  apply (get_window_table_half_open sample_check_is_scitype sample_convert_to
           sample_window_end_operand panel_2x5 "pd-multiindex" 2 1 4).
  - exact (sample_table_form panel_2x5).
  - reflexivity.
Defined.

(** The window of length 2 at lag 1 of two instances over the times 0..4:
    the times 2 and 3 of each. *)
Example get_window_panel_2x5 :
  get_window sample_check_is_scitype sample_convert_to sample_window_end_operand
    (PdDataFrame panel_2x5) (Some 2) 1
  = Ok (PdDataFrame
          (DataFrame
             (MultiIndex ["instances"; "timepoints"]%string
                [MLabel [0] 2; MLabel [0] 3; MLabel [1] 2; MLabel [1] 3])
             [Column "a" DtNumeric [CNum 2; CNum 3; CNum 7; CNum 8]])).
Proof. reflexivity. Qed.

(** A table without nested cells always has a scalar cutoff. *)
Lemma get_cutoff_table_scalar (d : dataframe) :
  is_multiindex (df_index d) = true \/ objcols d = [] ->
  exists tc, get_cutoff (PdDataFrame d) (Some 0) false = Ok (PInt tc).
Proof.
  intros H. unfold get_cutoff. simpl.
  destruct (Nat.eqb (index_len (df_index d)) 0) eqn:En; [eexists; reflexivity|].
  apply Nat.eqb_neq in En.
  destruct (df_index d) as [vals|names rows] eqn:Ei; simpl in *.
  - destruct H as [H|H]; [discriminate|]. rewrite H.
    exists (last vals 0). apply index_last_nonempty.
    intros ->. apply En. reflexivity.
  - destruct (get_cutoff_multiindex_scalar rows) as [v [Hv _]].
    + intros ->. apply En. reflexivity.
    + exists v. exact Hv.
Qed.

(** ** The window of an array *)

Lemma get_window_ndarray_slice (e : Z) (a : ndarray) (n : nat) (rest : list nat)
    (w lag : Z) :
  shape a = n :: rest ->
  get_window_ndarray e a w lag
  = nd_slice a (Z.max (- w - lag) (- Z.of_nat n))
      (if Z.max (- lag) e =? 0 then None else Some (Z.max (- lag) e)).
Proof.
  intros Hs. unfold get_window_ndarray, nd_len. rewrite Hs. simpl.
  destruct (Z.max (- lag) e =? 0); reflexivity.
Qed.

Lemma slice_bound_range (n i : Z) : 0 <= n -> 0 <= slice_bound n i <= n.
Proof.
  intros Hn. unfold slice_bound. destruct (i <? 0) eqn:E.
  - apply Z.ltb_lt in E. lia.
  - apply Z.ltb_ge in E. lia.
Qed.

Lemma nd_wf_length (a : ndarray) (n : nat) (rest : list nat) :
  shape a = n :: rest -> nd_wf a -> length (data a) = (n * stride a)%nat.
Proof.
  unfold nd_wf, stride. intros -> H. exact H.
Qed.

(** With no lag, a positive window length and an operand that is not
    positive, the slice is the [min w n] trailing entries. *)
Lemma get_window_ndarray_trailing (e : Z) (a : ndarray) (n : nat) (rest : list nat)
    (w : Z) :
  shape a = n :: rest -> nd_wf a -> e <= 0 -> 0 < w ->
  get_window_ndarray e a w 0
  = Ok (NdArray (Nat.min (Z.to_nat w) n :: rest)
          (trailing (Nat.min (Z.to_nat w) n * stride a) (data a))).
Proof.
  intros Hs Hwf He Hw.
  rewrite (get_window_ndarray_slice e a n rest w 0 Hs).
  replace (Z.max (- 0) e) with 0 by lia. simpl.
  unfold nd_slice. rewrite Hs.
  set (k := Nat.min (Z.to_nat w) n).
  assert (Hlo : slice_bound (Z.of_nat n) (Z.max (- w - 0) (- Z.of_nat n))
                = Z.of_nat (n - k)).
  { unfold slice_bound, k.
    destruct (Z.max (- w - 0) (- Z.of_nat n) <? 0) eqn:E.
    - apply Z.ltb_lt in E. lia.
    - apply Z.ltb_ge in E. lia. }
  rewrite Hlo.
  assert (Hk0 : Z.to_nat (Z.of_nat n - Z.of_nat (n - k)) = k) by (unfold k; lia).
  rewrite Hk0.
  rewrite Nat2Z.id. f_equal. f_equal.
  pose proof (nd_wf_length a n rest Hs Hwf) as Hlen.
  unfold trailing. rewrite Hlen.
  assert (Hk : (k <= n)%nat) by (unfold k; lia).
  replace (n * stride a - k * stride a)%nat with ((n - k) * stride a)%nat by nia.
  apply firstn_all2. rewrite length_skipn, Hlen. nia.
Qed.

(** Whatever the operand, a window of an empty array is empty. *)
Lemma get_window_ndarray_of_empty (e w lag : Z) (rest : list nat) (a r : ndarray) :
  shape a = 0%nat :: rest ->
  get_window_ndarray e a w lag = Ok r ->
  shape r = 0%nat :: rest.
Proof.
  intros Hs. rewrite (get_window_ndarray_slice e a 0 rest w lag Hs).
  unfold nd_slice. rewrite Hs. intros H. injection H as <-. simpl.
  f_equal.
  pose proof (slice_bound_range 0 (Z.max (- w - lag) 0) (Z.le_refl 0)).
  destruct (if Z.max (- lag) e =? 0 then None else Some (Z.max (- lag) e)) as [s|].
  - pose proof (slice_bound_range 0 s (Z.le_refl 0)). lia.
  - lia.
Qed.

(** C7, at an empty array: the window of length 1 is empty, although the
    window length is positive. *)
Lemma get_window_ndarray_empty_buffer :
  get_window_ndarray 0 empty_buffer 1 0 = Ok (NdArray [0%nat] []) /\
  get_window sample_check_is_scitype sample_convert_to sample_window_end_operand
    (NdArr empty_buffer) (Some 1) 0 = Ok (NdArr (NdArray [0%nat] [])).
Proof. split; reflexivity. Qed.

(** C7, amended. For an array of [n] entries along its first axis, the
    slice starts at [max (-w - lag) (-n)] and ends at the maximum of [-lag]
    and the second operand, an end of 0 standing for a slice to the end.
    So with no lag, a positive window length [w] and an operand that is not
    positive, the result is the [min w n] trailing entries, and it is not
    empty when the array is not. *)
Theorem get_window_ndarray_bounds (e : Z) (a : ndarray) (n : nat) (rest : list nat)
    (w lag : Z) :
  shape a = n :: rest -> nd_wf a ->
  get_window_ndarray e a w lag
  = nd_slice a (Z.max (- w - lag) (- Z.of_nat n))
      (if Z.max (- lag) e =? 0 then None else Some (Z.max (- lag) e)) /\
  (e <= 0 -> 0 < w ->
   get_window_ndarray e a w 0
   = Ok (NdArray (Nat.min (Z.to_nat w) n :: rest)
           (trailing (Nat.min (Z.to_nat w) n * stride a) (data a))) /\
   ((0 < n)%nat -> (0 < Nat.min (Z.to_nat w) n)%nat)).
Proof.
  intros Hs Hwf. split.
  - apply (get_window_ndarray_slice e a n rest w lag Hs).
  - intros He Hw. split.
    + apply get_window_ndarray_trailing; assumption.
    + lia.
Qed.

Lemma get_window_ndarray_bounds_witness :
  get_window_ndarray (-10) buffer10 3 0 = Ok (NdArray [3%nat] [7; 8; 9]).
Proof.
  refine (proj1 (proj2 (get_window_ndarray_bounds (-10) buffer10 10 [] 3 0
                          eq_refl eq_refl) _ _)); lia.
Defined.

(** ** Windows of windows *)

(** A window length of [None] is no window: the container itself. *)
Lemma get_window_None
    (check_is_scitype : container -> option string)
    (convert_to : container -> list string -> result container)
    (window_end_operand : ndarray -> Z -> Z -> Z)
    (obj : container) (lag : Z) :
  get_window check_is_scitype convert_to window_end_operand obj None lag = Ok obj.
Proof. reflexivity. Qed.

(** With a window length of 0 the slice of an array starts at position 0:
    whatever the operand, as long as it is not positive, the window of
    length 0 is the whole array, and the window of length 1 of that is its
    last entry. *)
Lemma get_window_ndarray_zero_length (e1 e2 : Z) :
  e1 <= 0 -> e2 <= 0 ->
  get_window_ndarray e1 buffer2 0 0 = Ok buffer2 /\
  get_window_ndarray e2 buffer2 1 0 = Ok (NdArray [1%nat] [2]).
Proof.
  intros H1 H2. unfold get_window_ndarray. simpl.
  replace (Z.max 0 e1) with 0 by lia. replace (Z.max 0 e2) with 0 by lia.
  split; reflexivity.
Qed.

(** C8, at the array of the entries 1 and 2 with the window lengths 0 and
    then 1: the first window is the whole array, and the window of length 1
    of it is the one entry 2, not the first window again. The docstring
    gives the window of length 0 as the indices above the cutoff and at most
    the cutoff, that is none, and this is what the branch for tables
    returns. *)
Theorem get_window_zero_length_not_idempotent :
  let get_window' :=
    get_window sample_check_is_scitype sample_convert_to sample_window_end_operand in
  get_window' (NdArr buffer2) (Some 0) 0 = Ok (NdArr buffer2) /\
  get_window' (NdArr buffer2) (Some 1) 0 = Ok (NdArr (NdArray [1%nat] [2])) /\
  get_window' (PdDataFrame (table_of [1; 2])) (Some 0) 0
    = Ok (PdDataFrame (DataFrame (Index []) [Column "a" DtNumeric []])).
Proof. repeat split. Qed.

Lemma trailing_all {A : Type} (l : list A) : trailing (length l) l = l.
Proof.
  unfold trailing. rewrite Nat.sub_diag. reflexivity.
Qed.

Lemma trailing_length {A : Type} (k : nat) (l : list A) :
  (k <= length l)%nat -> length (trailing k l) = k.
Proof.
  intros H. unfold trailing. rewrite length_skipn. lia.
Qed.

(** On an array, with no lag, operands that are not positive and a positive
    first window length, a second window that is at least as long returns
    the first window. *)
Lemma get_window_ndarray_idempotent (e1 e2 : Z) (a r : ndarray) (n : nat)
    (rest : list nat) (w1 w2 : Z) :
  shape a = n :: rest -> nd_wf a -> e1 <= 0 -> e2 <= 0 -> 0 < w1 <= w2 ->
  get_window_ndarray e1 a w1 0 = Ok r ->
  get_window_ndarray e2 r w2 0 = Ok r.
Proof.
  intros Hs Hwf He1 He2 Hw H.
  rewrite (get_window_ndarray_trailing e1 a n rest w1 Hs Hwf He1) in H by lia.
  injection H as <-.
  set (k := Nat.min (Z.to_nat w1) n).
  pose proof (nd_wf_length a n rest Hs Hwf) as Hlen.
  assert (Hst : stride a = fold_right Nat.mul 1%nat rest).
  { unfold stride. rewrite Hs. reflexivity. }
  assert (Hk : (k <= n)%nat) by (unfold k; lia).
  assert (Hl : length (trailing (k * stride a) (data a)) = (k * stride a)%nat).
  { apply trailing_length. rewrite Hlen. nia. }
  rewrite (get_window_ndarray_trailing e2 _ k rest w2); try lia.
  - replace (Nat.min (Z.to_nat w2) k) with k by (unfold k; lia).
    f_equal. f_equal. unfold stride at 1. simpl. rewrite <- Hst.
    rewrite <- Hl at 1. apply trailing_all.
  - reflexivity.
  - unfold nd_wf. simpl. rewrite Hl, Hst. reflexivity.
Qed.

Lemma last_filter {A : Type} (p : A -> bool) (l : list A) (d : A) :
  l <> [] -> p (last l d) = true -> last (filter p l) d = last l d.
Proof.
  intros Hne Hp. rewrite (app_removelast_last d Hne) at 1.
  rewrite filter_app. simpl. rewrite Hp. apply last_last.
Qed.

Lemma last_in {A : Type} (l : list A) (d : A) : l <> [] -> In (last l d) l.
Proof.
  intros Hne. rewrite (app_removelast_last d Hne) at 2.
  apply in_or_app. right. left. reflexivity.
Qed.

Lemma last_of_map {A B : Type} (f : A -> B) (l : list A) (d : A) (d' : B) :
  l <> [] -> last (map f l) d' = f (last l d).
Proof.
  intros Hne. rewrite (app_removelast_last d Hne) at 1.
  rewrite map_app. simpl. apply last_last.
Qed.

Lemma filter_comm {A : Type} (p q : A -> bool) (l : list A) :
  filter p (filter q l) = filter q (filter p l).
Proof.
  induction l as [|x l IH]; simpl; [reflexivity|].
  destruct (q x) eqn:Eq, (p x) eqn:Ep; simpl; rewrite ?Eq, ?Ep, IH; reflexivity.
Qed.

Lemma select_mask_length {A B : Type} (mask : list bool) (l : list A) (l' : list B) :
  length l = length l' ->
  length (select_mask mask l) = length (select_mask mask l').
Proof.
  revert l l'. induction mask as [|b mask IH]; intros [|x l] [|y l'] H;
    simpl in *; try reflexivity; try discriminate.
  injection H as H. destruct b; simpl; rewrite (IH l l' H); reflexivity.
Qed.

Lemma select_mask_all {A B : Type} (p : A -> bool) (l : list A) (c : list B) :
  (forall x, In x l -> p x = true) -> length c = length l ->
  select_mask (map p l) c = c.
Proof.
  revert c. induction l as [|x l IH]; intros [|y c] Hp Hlen;
    simpl in *; try reflexivity; try discriminate.
  rewrite (Hp x (or_introl eq_refl)). f_equal.
  apply IH; [intros z Hz; apply Hp; right; exact Hz | lia].
Qed.

Lemma index_len_labels (i : index) : index_len i = length (index_labels i).
Proof.
  destruct i; simpl; [rewrite length_map|]; reflexivity.
Qed.

Lemma df_iloc_wf (d : dataframe) (mask : list bool) :
  df_wf d -> df_wf (df_iloc d mask).
Proof.
  unfold df_wf. simpl. intros H. apply Forall_map.
  apply (Forall_impl _ (P := fun c => length (col_cells c) = index_len (df_index d)));
    [|exact H].
  intros c Hc. simpl. rewrite index_len_labels, index_labels_iloc.
  apply select_mask_length. rewrite Hc. apply index_len_labels.
Qed.

(** A mask that holds at every row selects the whole table. *)
Lemma df_iloc_all (d : dataframe) (p : mlabel -> bool) :
  df_wf d -> (forall l, In l (index_labels (df_index d)) -> p l = true) ->
  df_iloc d (map p (index_labels (df_index d))) = d.
Proof.
  intros Hwf Hp. destruct d as [i cols]. unfold df_iloc. simpl in *. f_equal.
  - destruct i as [vals|names rows]; simpl in *.
    + f_equal. rewrite map_map. apply select_mask_all; [|reflexivity].
      intros v Hv. apply Hp. apply in_map. exact Hv.
    + f_equal. apply select_mask_all; [exact Hp | reflexivity].
  - unfold df_wf in Hwf. simpl in Hwf.
    induction cols as [|c cols IH]; simpl; [reflexivity|].
    inversion Hwf as [|c' cols' Hc Hcols]; subst.
    rewrite (IH Hcols). f_equal. destruct c as [nm dt cells]. simpl in *. f_equal.
    apply select_mask_all; [exact Hp|].
    rewrite Hc. apply index_len_labels.
Qed.

Lemma df_index_iloc (d : dataframe) (mask : list bool) :
  df_index (df_iloc d mask) = index_iloc (df_index d) mask.
Proof. reflexivity. Qed.

Lemma objcols_iloc (d : dataframe) (mask : list bool) :
  objcols d = [] -> objcols (df_iloc d mask) = [].
Proof.
  unfold objcols. simpl. induction (df_columns d) as [|c cols IH]; simpl;
    [reflexivity|].
  destruct (dtype_eqb (col_dtype c) DtObject); [discriminate | exact IH].
Qed.

Lemma in_window_cutoff (lo tc t : Z) :
  in_window lo tc t = true -> in_window lo tc tc = true.
Proof.
  rewrite !in_window_spec. lia.
Qed.

(** The instance that ends last still ends last, and at the same time, among
    the rows that a window up to the cutoff keeps. *)
Lemma is_max_instance_last_window (rows : list mlabel) (lo tc : Z) :
  let p := fun l => in_window lo tc (time l) in
  filter p rows <> [] ->
  is_max tc (map (instance_last rows) (instances rows)) ->
  is_max tc (map (instance_last (filter p rows)) (instances (filter p rows))).
Proof.
  intros p Hne [Hin Hub].
  assert (Htc : in_window lo tc tc = true).
  { destruct (filter p rows) as [|l0 t] eqn:E; [contradiction|].
    assert (Hl0 : In l0 (filter p rows)) by (rewrite E; left; reflexivity).
    apply filter_In in Hl0. apply (in_window_cutoff lo tc (time l0)), Hl0. }
  split.
  - apply in_map_iff in Hin. destruct Hin as [g [Hg Hgi]].
    apply nodup_In, in_map_iff in Hgi. destruct Hgi as [r [Hr Hrin]].
    set (G := filter (fun r' => list_eqb (outer r') g) rows) in *.
    assert (HG : G <> []).
    { intros HG. assert (Hi : In r G).
      { apply filter_In. split; [exact Hrin | apply list_eqb_eq; exact Hr]. }
      rewrite HG in Hi. exact Hi. }
    unfold instance_last in Hg. fold G in Hg.
    rewrite (last_of_map time G r 0 HG) in Hg.
    assert (Hp : p (last G r) = true) by (unfold p; rewrite Hg; exact Htc).
    pose proof (last_in G r HG) as Hlast. apply filter_In in Hlast.
    destruct Hlast as [Hlin Hlo]. apply list_eqb_eq in Hlo.
    apply in_map_iff. exists g. split.
    + unfold instance_last. rewrite filter_comm. fold G.
      assert (HpG : filter p G <> []).
      { intros HpG. assert (Hi : In (last G r) (filter p G)).
        { apply filter_In. split; [apply last_in; exact HG | exact Hp]. }
        rewrite HpG in Hi. exact Hi. }
      rewrite (last_of_map time (filter p G) r 0 HpG).
      rewrite (last_filter p G r HG Hp). exact Hg.
    + apply nodup_In, in_map_iff. exists (last G r). split; [exact Hlo|].
      apply filter_In. split; assumption.
  - intros x Hx. apply in_map_iff in Hx. destruct Hx as [g [Hg Hgi]].
    apply nodup_In, in_map_iff in Hgi. destruct Hgi as [r [Hr Hrin]].
    set (G := filter (fun r' => list_eqb (outer r') g) (filter p rows)) in *.
    assert (HG : G <> []).
    { intros HG. assert (Hi : In r G).
      { apply filter_In. split; [exact Hrin | apply list_eqb_eq; exact Hr]. }
      rewrite HG in Hi. exact Hi. }
    unfold instance_last in Hg. fold G in Hg.
    rewrite (last_of_map time G r 0 HG) in Hg.
    pose proof (last_in G r HG) as Hlast. apply filter_In in Hlast.
    destruct Hlast as [Hlin _]. apply filter_In in Hlin. destruct Hlin as [_ Hp].
    unfold p in Hp. apply in_window_spec in Hp. lia.
Qed.

(** A window up to the cutoff, when it keeps a row at all, has the cutoff
    of the table it is taken from. *)
Lemma get_cutoff_of_window (d : dataframe) (lo tc : Z) :
  let p := fun l => in_window lo tc (time l) in
  let s := df_iloc d (map p (index_labels (df_index d))) in
  is_multiindex (df_index d) = true \/ objcols d = [] ->
  get_cutoff (PdDataFrame d) (Some 0) false = Ok (PInt tc) ->
  index_labels (df_index s) <> [] ->
  get_cutoff (PdDataFrame s) (Some 0) false = Ok (PInt tc).
Proof.
  intros p s Hd Hc Hne. unfold s in *. clear s.
  rewrite df_index_iloc, index_labels_iloc, select_mask_filter in Hne.
  assert (Hdne : index_labels (df_index d) <> []).
  { intros E. rewrite E in Hne. apply Hne. reflexivity. }
  unfold get_cutoff in *. simpl py_len in *. cbv beta zeta in *.
  unfold bind in *.
  rewrite !df_index_iloc. rewrite !index_len_labels in *.
  rewrite index_labels_iloc, select_mask_filter.
  destruct (length (index_labels (df_index d))) eqn:El.
  { apply length_zero_iff_nil in El. contradiction. }
  destruct (length (filter p (index_labels (df_index d)))) eqn:Els.
  { apply length_zero_iff_nil in Els. contradiction. }
  simpl Nat.eqb in *. cbv iota in *.
  destruct d as [[vals|names rows] cols]; simpl in *.
  - destruct Hd as [Hd|Hd]; [discriminate|].
    rewrite (objcols_iloc (DataFrame (Index vals) cols) _ Hd).
    rewrite Hd in Hc.
    assert (Hv : vals <> []) by (intros ->; apply Hdne; reflexivity).
    change (index_last (Index vals) = Ok (PInt tc)) in Hc.
    change (index_last (Index (select_mask (map p (map (MLabel []) vals)) vals))
            = Ok (PInt tc)).
    rewrite (index_last_nonempty vals Hv) in Hc. injection Hc as Hc.
    set (q := fun v => p (MLabel [] v)).
    rewrite map_map. fold q. rewrite (select_mask_filter q vals).
    assert (Htc : q (last vals 0) = true).
    { destruct (filter p (map (MLabel []) vals)) as [|l0 t] eqn:E; [contradiction|].
      assert (Hl0 : In l0 (filter p (map (MLabel []) vals)))
        by (rewrite E; left; reflexivity).
      apply filter_In in Hl0. unfold q, p. simpl. rewrite Hc.
      apply (in_window_cutoff lo tc (time l0)), Hl0. }
    rewrite index_last_nonempty.
    + rewrite (last_filter q vals 0 Hv Htc), Hc. reflexivity.
    + intros E.
      assert (Hi : In (last vals 0) (filter q vals)).
      { apply filter_In. split; [apply last_in; exact Hv | exact Htc]. }
      rewrite E in Hi. exact Hi.
  - rewrite (select_mask_filter p rows).
    destruct (get_cutoff_multiindex_scalar rows Hdne) as [v [Hv Hmax]].
    rewrite Hv in Hc. injection Hc as ->.
    destruct (get_cutoff_multiindex_scalar (filter p rows) Hne) as [v' [Hv' Hmax']].
    rewrite Hv'. f_equal. f_equal.
    apply (is_max_unique v' tc _ Hmax').
    apply is_max_instance_last_window; assumption.
Qed.

(** On a table without nested cells, with no lag, a second window that is
    at least as long as the first returns the first window. *)
Lemma get_window_dataframe_idempotent (d s : dataframe) (w1 w2 : Z) :
  df_wf d ->
  is_multiindex (df_index d) = true \/ objcols d = [] ->
  w1 <= w2 ->
  get_window_dataframe d w1 0 = Ok s ->
  get_window_dataframe s w2 0 = Ok s.
Proof.
  intros Hwf Hd Hw H.
  destruct (get_cutoff_table_scalar d Hd) as [tc Hc].
  rewrite (get_window_dataframe_eq d w1 0 tc Hc) in H.
  replace (tc - 0) with tc in H by lia.
  injection H as <-.
  set (p := fun l => in_window (tc - w1 - 0) tc (time l)).
  remember (df_iloc d (map p (index_labels (df_index d)))) as s eqn:Es.
  assert (Hswf : df_wf s) by (rewrite Es; apply df_iloc_wf; exact Hwf).
  assert (Hls : index_labels (df_index s) = filter p (index_labels (df_index d))).
  { rewrite Es, df_index_iloc, index_labels_iloc. apply select_mask_filter. }
  destruct (index_labels (df_index s)) as [|l0 ls] eqn:El.
  - assert (Hc0 : get_cutoff (PdDataFrame s) (Some 0) false = Ok (PInt 0)).
    { unfold get_cutoff. simpl py_len. unfold bind.
      rewrite index_len_labels, El. reflexivity. }
    rewrite (get_window_dataframe_eq s w2 0 0 Hc0). f_equal.
    apply df_iloc_all; [exact Hswf|]. rewrite El. intros l [].
  - assert (Hcs : get_cutoff (PdDataFrame s) (Some 0) false = Ok (PInt tc)).
    { rewrite Es. apply (get_cutoff_of_window d (tc - w1 - 0) tc Hd Hc).
      fold p. rewrite <- Es, El. discriminate. }
    rewrite (get_window_dataframe_eq s w2 0 tc Hcs). f_equal.
    apply df_iloc_all; [exact Hswf|].
    intros l Hl. rewrite El, Hls in Hl. apply filter_In in Hl.
    destruct Hl as [_ Hp]. unfold p in Hp.
    apply in_window_spec in Hp. apply in_window_spec. lia.
Qed.

Section Idempotence.

Variable check_is_scitype : container -> option string.
Variable convert_to : container -> list string -> result container.
Variable window_end_operand : ndarray -> Z -> Z -> Z.

(** X11. [get_window] on a table-form container without nested cells, with no
    lag: a second window that is at least as long as the first returns the
    first window, whatever the sign of the window lengths. *)
Lemma get_window_table_idempotent (d s : dataframe) (m : string) (w1 w2 : Z) :
  table_form check_is_scitype convert_to d m ->
  table_form check_is_scitype convert_to s m ->
  df_wf d ->
  is_multiindex (df_index d) = true \/ objcols d = [] ->
  w1 <= w2 ->
  get_window check_is_scitype convert_to window_end_operand
    (PdDataFrame d) (Some w1) 0 = Ok (PdDataFrame s) ->
  get_window check_is_scitype convert_to window_end_operand
    (PdDataFrame s) (Some w2) 0 = Ok (PdDataFrame s).
Proof.
  intros [Hm [Hto Hback]] [Hms [Htos _]] Hwf Hd Hw H.
  unfold get_window in *.
  rewrite Hm, Hto in H. rewrite Hms, Htos. unfold bind in *.
  destruct (get_cutoff_table_scalar d Hd) as [tc Hc].
  pose proof (get_window_dataframe_eq d w1 0 tc Hc) as Hd1.
  rewrite Hd1 in H. rewrite Hback in H. injection H as H. subst s.
  rewrite (get_window_dataframe_idempotent d _ w1 w2 Hwf Hd Hw Hd1).
  apply Hback.
Qed.

(** X12. [get_window] on an array that needs no conversion, with no lag and
    operands that are not positive: after a first window of positive
    length, a second window that is at least as long returns the first. *)
Lemma get_window_array_idempotent (a r : ndarray) (n : nat) (rest : list nat)
    (m m' : string) (w1 w2 : Z) :
  check_is_scitype (NdArr a) = Some m ->
  convert_to (NdArr a) GET_LATEST_WINDOW_SUPPORTED_MTYPES = Ok (NdArr a) ->
  check_is_scitype (NdArr r) = Some m' ->
  convert_to (NdArr r) GET_LATEST_WINDOW_SUPPORTED_MTYPES = Ok (NdArr r) ->
  window_end_operand a w1 0 <= 0 -> window_end_operand r w2 0 <= 0 ->
  shape a = n :: rest -> nd_wf a ->
  0 < w1 <= w2 ->
  get_window check_is_scitype convert_to window_end_operand
    (NdArr a) (Some w1) 0 = Ok (NdArr r) ->
  get_window check_is_scitype convert_to window_end_operand
    (NdArr r) (Some w2) 0 = Ok (NdArr r).
Proof.
  intros Hm Hto Hm' Hto' He He' Hs Hwf Hw H.
  unfold get_window in *.
  rewrite Hm, Hto in H. rewrite Hm', Hto'. unfold bind in *.
  destruct (get_window_ndarray (window_end_operand a w1 0) a w1 0) as [r0|e] eqn:E;
    [|discriminate].
  injection H as ->.
  rewrite (get_window_ndarray_idempotent _ (window_end_operand r w2 0) a r n rest
             w1 w2 Hs Hwf He He' Hw E).
  reflexivity.
Qed.

End Idempotence.

(** * Further properties of the functions *)

(** ** The cutoff and the index of a series *)

Lemma get_cutoff_index_wraps_scalar_witness :
  get_cutoff (PyList ragged_tables) (Some 0) true = Ok (PIndex (Index [7])).
Proof.
  apply (get_cutoff_index_wraps_scalar (PyList ragged_tables) (Some 0) 7).
  - intros a. discriminate.
  - discriminate.
  - reflexivity.
Defined.

Lemma zrange_snoc (c : Z) (n : nat) :
  zrange c (c + Z.of_nat (S n)) = zrange c (c + Z.of_nat n) ++ [c + Z.of_nat n].
Proof.
  unfold zrange.
  replace (c + Z.of_nat (S n) - c) with (Z.of_nat (S n)) by lia.
  replace (c + Z.of_nat n - c) with (Z.of_nat n) by lia.
  rewrite !Nat2Z.id, seq_S, map_app. reflexivity.
Qed.

Lemma zrange_length (c : Z) (n : nat) : length (zrange c (c + Z.of_nat n)) = n.
Proof.
  unfold zrange. rewrite length_map, length_seq. lia.
Qed.

Lemma index_last_ix_RangeIndex (c : Z) (n : nat) :
  index_last_ix (RangeIndex c (c + Z.of_nat (S n)))
  = Ok (PIndex (Index [c + Z.of_nat n])).
Proof.
  unfold RangeIndex, index_last_ix. rewrite zrange_snoc, rev_unit. reflexivity.
Qed.

(** X2. For a non-empty object of Series scitype (a series, a table with a
    single-level index and no nested cells, an array of one or two
    dimensions), the cutoff that [get_cutoff] returns as an index is the
    last entry of the index that [get_index_for_series] gives the object at
    the same offset. *)
Theorem get_cutoff_is_last_of_index_for_series (obj : container) (c : Z) :
  series_like obj ->
  get_cutoff obj (Some c) true
  = (i <- get_index_for_series obj c ;; index_last_ix i).
Proof.
  destruct obj as [a|s|d|l|len]; simpl; try contradiction.
  - intros [Hd Hn]. destruct a as [sh dt]. unfold ndim in Hd. simpl in *.
    destruct sh as [|n rest]; [destruct Hd; discriminate|]. simpl in Hn.
    destruct n as [|n]; [contradiction|].
    unfold get_cutoff. simpl py_len. unfold nd_len. simpl.
    unfold get_cutoff_ndarray, ndim, shape_first. simpl shape.
    assert (Hr : (length rest < 2)%nat) by (destruct Hd; simpl in *; lia).
    destruct rest as [|m [|k rest]]; simpl in Hr; try lia;
      change (Ok (PIndex (RangeIndex (Z.of_nat (S n) + c - 1) (Z.of_nat (S n) + c)))
              = index_last_ix (RangeIndex c (c + Z.of_nat (S n))));
      rewrite (index_last_ix_RangeIndex c n); unfold RangeIndex;
      rewrite zrange_one; do 4 f_equal; lia.
  - intros Hn. unfold get_cutoff. simpl.
    destruct (index_len (s_index s)); [contradiction | reflexivity].
  - intros [Hm [Ho Hn]]. unfold get_cutoff. simpl.
    destruct (index_len (df_index d)); [contradiction|]. simpl.
    destruct (df_index d); [|discriminate]. rewrite Ho. reflexivity.
Qed.

Lemma get_cutoff_is_last_of_index_for_series_witness :
  get_cutoff (NdArr buffer_2x3) (Some 4) true
  = (i <- get_index_for_series (NdArr buffer_2x3) 4 ;; index_last_ix i).
Proof.
  apply (get_cutoff_is_last_of_index_for_series (NdArr buffer_2x3) 4).
  split; [right; reflexivity | discriminate].
Defined.

(** The array of 2 rows at the offset 4 has the index 4, 5 and the cutoff
    index 5. *)
Example get_cutoff_buffer_2x3 :
  get_index_for_series (NdArr buffer_2x3) 4 = Ok (Index [4; 5]) /\
  get_cutoff (NdArr buffer_2x3) (Some 4) true = Ok (PIndex (Index [5])).
Proof. split; reflexivity. Qed.

(** X3. On an array [get_cutoff] returns a value exactly when the array has
    at least one dimension and either is empty or has at most three
    dimensions: an array of no dimension has no [len] ([TypeError]), and a
    non-empty array of more than three dimensions leaves [cutoff_ind]
    unbound ([UnboundLocalError]). *)
Theorem get_cutoff_ndarray_defined (a : ndarray) (c : option Z) (return_index : bool) :
  match shape a with
  | [] => get_cutoff (NdArr a) c return_index = Raise TypeError
  | n :: rest =>
      if Nat.eqb n 0 || Nat.leb (length rest) 2
      then exists v, get_cutoff (NdArr a) c return_index = Ok v
      else get_cutoff (NdArr a) c return_index = Raise UnboundLocalError
  end.
Proof.
  destruct a as [sh dt]. simpl. destruct sh as [|n rest].
  - reflexivity.
  - unfold get_cutoff. simpl py_len. unfold nd_len. simpl.
    destruct n as [|n]; simpl.
    + eexists. reflexivity.
    + unfold get_cutoff_ndarray, ndim, shape_last, shape_first. simpl shape.
      destruct rest as [|m [|k [|j rest]]]; simpl.
      * destruct return_index; eexists; reflexivity.
      * destruct return_index; eexists; reflexivity.
      * destruct return_index; eexists; reflexivity.
      * reflexivity.
Qed.

Example get_cutoff_4d_array :
  get_cutoff (NdArr buffer_4d) (Some 0) false = Raise UnboundLocalError.
Proof. reflexivity. Qed.

(** ** The cutoff of a nested table *)

Lemma objcols_incl (d : dataframe) (c : column) :
  In c (objcols d) -> In c (df_columns d).
Proof.
  unfold objcols. intros H. apply filter_In in H. apply H.
Qed.

Lemma nested_cells_nonempty (d : dataframe) :
  df_wf d -> index_len (df_index d) <> 0%nat -> objcols d <> [] ->
  nested_cells d <> [].
Proof.
  intros Hwf Hn Ho. unfold nested_cells.
  destruct (objcols d) as [|c cols] eqn:E; [contradiction|].
  assert (Hc : In c (df_columns d)).
  { apply objcols_incl. rewrite E. left. reflexivity. }
  unfold df_wf in Hwf. rewrite Forall_forall in Hwf. specialize (Hwf c Hc).
  simpl. destruct (col_cells c) as [|x cells]; simpl in *; [congruence | discriminate].
Qed.

(** X4. The cutoff of a non-empty nested table is the maximum, over all
    series nested in its columns of object dtype, of the last index value
    of the series; the row index of the table and its other columns play no
    part. *)
Theorem get_cutoff_nested_is_max_of_lasts (d : dataframe) (cutoff : option Z) :
  df_wf d -> nested_panel d ->
  exists v, get_cutoff (PdDataFrame d) cutoff false = Ok (PInt v) /\
            is_max v (map cell_last (nested_cells d)).
Proof.
  intros Hwf [Hm [Hn [Ho Hall]]].
  pose proof (nested_cells_nonempty d Hwf Hn Ho) as Hne.
  unfold get_cutoff. simpl py_len. unfold bind at 1.
  destruct (index_len (df_index d)) as [|n] eqn:En; [contradiction|].
  simpl Nat.eqb. cbv iota.
  destruct (df_index d) as [vals|names rows]; [|discriminate].
  unfold nested_cells in *.
  destruct (objcols d) as [|c cols] eqn:E; [contradiction|].
  unfold get_cutoff_nested.
  rewrite (mapM_ok _ (fun x => PInt (cell_last x))).
  - unfold bind. rewrite <- (map_map cell_last PInt).
    apply py_max_ints. intros H. apply map_eq_nil in H. contradiction.
  - intros x Hx. rewrite Forall_forall in Hall.
    destruct (Hall x Hx) as [vs [ws [-> Hvs]]]. simpl.
    apply index_last_nonempty. exact Hvs.
Qed.

Lemma nested_table_is_nested_panel : nested_panel nested_table.
Proof.
  split; [reflexivity|]. split; [discriminate|]. split; [discriminate|].
  repeat constructor; eexists; eexists; (split; [reflexivity | discriminate]).
Qed.

Lemma get_cutoff_nested_is_max_of_lasts_witness :
  exists v, get_cutoff (PdDataFrame nested_table) (Some 0) false = Ok (PInt v) /\
            is_max v (map cell_last (nested_cells nested_table)).
Proof.
  apply (get_cutoff_nested_is_max_of_lasts nested_table (Some 0)).
  - repeat constructor.
  - exact nested_table_is_nested_panel.
Defined.

(** ** The cutoff of a table without nested cells *)

Lemma get_level_values_last_labels (i : index) :
  get_level_values_last i = map time (index_labels i).
Proof.
  destruct i as [vals|names rows]; simpl; [|reflexivity].
  rewrite map_map. simpl. symmetry. apply map_id.
Qed.

Lemma filter_all {A : Type} (p : A -> bool) (l : list A) :
  (forall x, In x l -> p x = true) -> filter p l = l.
Proof.
  induction l as [|x l IH]; intros H; simpl; [reflexivity|].
  rewrite (H x (or_introl eq_refl)). f_equal.
  apply IH. intros y Hy. apply H. right. exact Hy.
Qed.

Lemma single_level_instances (vals : list Z) (g : list Z) :
  In g (instances (map (MLabel []) vals)) -> g = [].
Proof.
  unfold instances. intros H. apply nodup_In in H. rewrite map_map in H.
  apply in_map_iff in H. destruct H as [v [<- _]]. reflexivity.
Qed.

Lemma single_level_instance_last (vals : list Z) :
  instance_last (map (MLabel []) vals) [] = last vals 0.
Proof.
  unfold instance_last. rewrite filter_all.
  - rewrite map_map. simpl. rewrite map_id. reflexivity.
  - intros r Hr. apply in_map_iff in Hr. destruct Hr as [v [<- _]]. reflexivity.
Qed.

(** A table without nested cells is a panel, of one instance when its index
    has a single level: its cutoff is the greatest of the last times of its
    instances. *)
Lemma get_cutoff_plain_table_max (d : dataframe) (cutoff : option Z) :
  plain_table d -> index_len (df_index d) <> 0%nat ->
  exists tc,
    get_cutoff (PdDataFrame d) cutoff false = Ok (PInt tc) /\
    is_max tc (map (instance_last (index_labels (df_index d)))
                 (instances (index_labels (df_index d)))).
Proof.
  intros Hd Hn. unfold get_cutoff. simpl py_len. unfold bind at 1.
  destruct (index_len (df_index d)) as [|n] eqn:En; [contradiction|].
  simpl Nat.eqb. cbv iota.
  destruct (df_index d) as [vals|names rows] eqn:Ei.
  - destruct Hd as [Hd|Hd]; [rewrite Ei in Hd; discriminate|]. rewrite Hd.
    assert (Hv : vals <> []) by (intros ->; discriminate).
    exists (last vals 0). split.
    + unfold last_of. apply index_last_nonempty. exact Hv.
    + simpl index_labels. split.
      * apply in_map_iff. exists []. split; [apply single_level_instance_last|].
        unfold instances. apply nodup_In. rewrite map_map. simpl.
        destruct vals as [|v vals]; [contradiction | left; reflexivity].
      * intros x Hx. apply in_map_iff in Hx. destruct Hx as [g [<- Hg]].
        apply single_level_instances in Hg. subst g.
        rewrite single_level_instance_last. lia.
  - simpl index_labels. apply get_cutoff_multiindex_scalar.
    intros ->. discriminate.
Qed.

Lemma instance_last_is_time (rows : list mlabel) (g : list Z) :
  In g (instances rows) ->
  exists r, In r rows /\ outer r = g /\ time r = instance_last rows g.
Proof.
  unfold instances. intros Hg. apply nodup_In, in_map_iff in Hg.
  destruct Hg as [r0 [Hr0 Hin]].
  set (G := filter (fun r => list_eqb (outer r) g) rows).
  assert (HG : G <> []).
  { intros HG. assert (Hi : In r0 G).
    { apply filter_In. split; [exact Hin | apply list_eqb_eq; exact Hr0]. }
    rewrite HG in Hi. exact Hi. }
  pose proof (last_in G r0 HG) as Hl. apply filter_In in Hl.
  destruct Hl as [Hlin Hlo]. apply list_eqb_eq in Hlo.
  exists (last G r0). split; [exact Hlin|]. split; [exact Hlo|].
  unfold instance_last. fold G. symmetry. apply last_of_map. exact HG.
Qed.

Lemma plain_table_cutoff_in_times (d : dataframe) (cutoff : option Z) :
  plain_table d -> index_len (df_index d) <> 0%nat ->
  exists tc,
    get_cutoff (PdDataFrame d) cutoff false = Ok (PInt tc) /\
    In tc (get_level_values_last (df_index d)).
Proof.
  intros Hd Hn.
  destruct (get_cutoff_plain_table_max d cutoff Hd Hn) as [tc [Hc [Hin _]]].
  exists tc. split; [exact Hc|].
  apply in_map_iff in Hin. destruct Hin as [g [Hg Hgi]].
  destruct (instance_last_is_time _ g Hgi) as [r [Hr [_ Ht]]].
  rewrite get_level_values_last_labels, <- Hg, <- Ht. apply in_map. exact Hr.
Qed.

(** X5. On a non-empty table without nested cells [get_cutoff] raises
    nothing, and the cutoff it returns is the time of a row of the table. *)
Theorem get_cutoff_table_is_a_time (d : dataframe) (cutoff : option Z) :
  plain_table d -> index_len (df_index d) <> 0%nat ->
  exists tc,
    get_cutoff (PdDataFrame d) cutoff false = Ok (PInt tc) /\
    In tc (get_level_values_last (df_index d)).
Proof.
  apply plain_table_cutoff_in_times.
Qed.

Lemma get_cutoff_table_is_a_time_witness :
  exists tc,
    get_cutoff (PdDataFrame panel_2x5) (Some 0) false = Ok (PInt tc) /\
    In tc (get_level_values_last (df_index panel_2x5)).
Proof.
  apply (get_cutoff_table_is_a_time panel_2x5 (Some 0)).
  - left. reflexivity.
  - discriminate.
Defined.

Lemma nondecreasing_le_last (l : list Z) (x : Z) :
  nondecreasing l = true -> In x l -> x <= last l 0.
Proof.
  revert x. induction l as [|x0 l IH]; intros x Hs Hx; [contradiction|].
  destruct l as [|y l].
  - destruct Hx as [<-|[]]. simpl. lia.
  - change (nondecreasing (x0 :: y :: l))
      with ((x0 <=? y) && nondecreasing (y :: l)) in Hs.
    apply andb_true_iff in Hs. destruct Hs as [Hxy Hs].
    apply Z.leb_le in Hxy.
    change (last (x0 :: y :: l) 0) with (last (y :: l) 0).
    destruct Hx as [<-|Hx].
    + specialize (IH y Hs (or_introl eq_refl)). lia.
    + apply IH; assumption.
Qed.

(** X6. When the times of every instance of a non-empty table without
    nested cells are in non-decreasing order, the cutoff is the greatest
    time of the table. *)
Theorem get_cutoff_sorted_table_is_max_time (d : dataframe) (cutoff : option Z) :
  plain_table d -> index_len (df_index d) <> 0%nat -> instances_sorted d ->
  exists tc,
    get_cutoff (PdDataFrame d) cutoff false = Ok (PInt tc) /\
    is_max tc (get_level_values_last (df_index d)).
Proof.
  intros Hd Hn Hs.
  destruct (plain_table_cutoff_in_times d cutoff Hd Hn) as [tc [Hc Hin]].
  destruct (get_cutoff_plain_table_max d cutoff Hd Hn) as [tc' [Hc' [_ Hub]]].
  rewrite Hc in Hc'. injection Hc' as <-.
  exists tc. split; [exact Hc|]. split; [exact Hin|].
  intros x Hx. rewrite get_level_values_last_labels in Hx.
  apply in_map_iff in Hx. destruct Hx as [r [<- Hr]].
  set (rows := index_labels (df_index d)) in *.
  assert (Hle : time r <= instance_last rows (outer r)).
  { apply (nondecreasing_le_last (loc_times rows (outer r))); [apply Hs|].
    unfold loc_times. apply in_map. apply filter_In.
    split; [exact Hr | apply list_eqb_eq; reflexivity]. }
  assert (Hi : In (instance_last rows (outer r))
                 (map (instance_last rows) (instances rows))).
  { apply in_map. unfold instances. apply nodup_In. apply in_map. exact Hr. }
  specialize (Hub _ Hi). lia.
Qed.

Lemma filter_none {A : Type} (p : A -> bool) (l : list A) :
  (forall x, In x l -> p x = false) -> filter p l = [].
Proof.
  induction l as [|x l IH]; intros H; simpl; [reflexivity|].
  rewrite (H x (or_introl eq_refl)).
  apply IH. intros y Hy. apply H. right. exact Hy.
Qed.

Lemma panel_2x5_sorted : instances_sorted panel_2x5.
Proof.
  intros g.
  destruct (list_eq_dec Z.eq_dec g [0]) as [->|H0]; [reflexivity|].
  destruct (list_eq_dec Z.eq_dec g [1]) as [->|H1]; [reflexivity|].
  unfold loc_times. rewrite filter_none; [reflexivity|].
  intros r Hr.
  destruct (list_eqb (outer r) g) eqn:E; [|reflexivity].
  apply list_eqb_eq in E. subst g. simpl in Hr.
  repeat (destruct Hr as [<-|Hr]; [simpl in *; congruence|]). contradiction.
Qed.

Lemma get_cutoff_sorted_table_is_max_time_witness :
  exists tc,
    get_cutoff (PdDataFrame panel_2x5) (Some 0) false = Ok (PInt tc) /\
    is_max tc (get_level_values_last (df_index panel_2x5)).
Proof.
  apply (get_cutoff_sorted_table_is_max_time panel_2x5 (Some 0)).
  - left. reflexivity.
  - discriminate.
  - exact panel_2x5_sorted.
Defined.

(** ** What a window keeps *)

Lemma filter_and {A : Type} (p q : A -> bool) (l : list A) :
  filter q (filter p l) = filter (fun x => p x && q x) l.
Proof.
  induction l as [|x l IH]; simpl; [reflexivity|].
  destruct (p x); simpl; [destruct (q x)|]; rewrite IH; reflexivity.
Qed.

Lemma in_window_lag (tc w L t : Z) :
  0 <= L ->
  in_window (tc - (w + L) - 0) (tc - 0) t && (t <=? tc - L)
  = in_window (tc - w - L) (tc - L) t.
Proof.
  intros HL. unfold in_window.
  replace (tc - (w + L) - 0) with (tc - w - L) by lia.
  destruct (tc - w - L <? t); simpl; [|reflexivity].
  destruct (Z.leb_spec t (tc - L)), (Z.leb_spec t (tc - 0)); simpl;
    lia || reflexivity.
Qed.

Lemma select_mask_le {A : Type} (mask : list bool) (l : list A) :
  (length (select_mask mask l) <= length l)%nat.
Proof.
  revert l. induction mask as [|b mask IH]; intros [|x l]; simpl; try lia.
  specialize (IH l). destruct b; simpl; lia.
Qed.

Lemma is_multiindex_iloc (i : index) (mask : list bool) :
  is_multiindex (index_iloc i mask) = is_multiindex i.
Proof.
  destruct i; reflexivity.
Qed.

Lemma plain_table_iloc (d : dataframe) (mask : list bool) :
  plain_table d -> plain_table (df_iloc d mask).
Proof.
  intros [H|H]; [left | right].
  - rewrite df_index_iloc, is_multiindex_iloc. exact H.
  - apply objcols_iloc. exact H.
Qed.

(** The slice of an array along its first axis: a block of consecutive
    entries, the other dimensions unchanged. *)
Lemma nd_slice_block (a : ndarray) (n : nat) (rest : list nat) (start : Z)
    (stop : option Z) :
  shape a = n :: rest -> nd_wf a ->
  exists r k pre suf,
    nd_slice a start stop = Ok r /\
    shape r = k :: rest /\ (k <= n)%nat /\ nd_wf r /\
    data a = pre ++ data r ++ suf.
Proof.
  intros Hs Hwf. unfold nd_slice. rewrite Hs.
  set (lo := slice_bound (Z.of_nat n) start).
  set (hi := match stop with
             | None => Z.of_nat n
             | Some s => slice_bound (Z.of_nat n) s
             end).
  assert (Hlo : 0 <= lo <= Z.of_nat n) by (apply slice_bound_range; lia).
  assert (Hhi : 0 <= hi <= Z.of_nat n).
  { unfold hi. destruct stop; [apply slice_bound_range|]; lia. }
  set (k := Z.to_nat (hi - lo)).
  set (st := stride a).
  pose proof (nd_wf_length a n rest Hs Hwf) as Hlen. fold st in Hlen.
  exists (NdArray (k :: rest) (firstn (k * st) (skipn (Z.to_nat lo * st) (data a)))).
  exists k, (firstn (Z.to_nat lo * st) (data a)),
    (skipn (k * st) (skipn (Z.to_nat lo * st) (data a))).
  split; [reflexivity|]. split; [reflexivity|].
  assert (Hk : (k + Z.to_nat lo <= n)%nat) by (unfold k; lia).
  split; [lia|]. split.
  - unfold nd_wf. simpl. rewrite length_firstn, length_skipn, Hlen.
    assert (Hst : st = fold_right Nat.mul 1%nat rest).
    { unfold st, stride. rewrite Hs. reflexivity. }
    rewrite <- Hst. nia.
  - simpl. rewrite firstn_skipn, firstn_skipn. reflexivity.
Qed.

Section Windows.

Variable check_is_scitype : container -> option string.
Variable convert_to : container -> list string -> result container.
Variable window_end_operand : ndarray -> Z -> Z -> Z.

Lemma get_window_table_eq (d : dataframe) (m : string) (w L tc : Z) :
  table_form check_is_scitype convert_to d m ->
  get_cutoff (PdDataFrame d) (Some 0) false = Ok (PInt tc) ->
  get_window check_is_scitype convert_to window_end_operand
    (PdDataFrame d) (Some w) L
  = Ok (PdDataFrame
          (df_iloc d (map (fun l => in_window (tc - w - L) (tc - L) (time l))
                        (index_labels (df_index d))))).
Proof.
  intros [Hm [Hto Hback]] Hc. unfold get_window. rewrite Hm, Hto.
  unfold bind at 1. rewrite (get_window_dataframe_eq d w L tc Hc).
  unfold bind. apply Hback.
Qed.

(** X7. On a table-form container without nested cells, the window of
    length [w] at a lag [L] that is not negative holds the rows and entries
    of the window of length [w + L] at no lag whose time is at most the
    cutoff less [L]: the lag leaves out the latest times of the longer
    window. *)
Theorem get_window_lag_cuts_longer_window (d : dataframe) (m : string) (w L : Z) :
  table_form check_is_scitype convert_to d m -> plain_table d -> 0 <= L ->
  exists tc s s',
    get_cutoff (PdDataFrame d) (Some 0) false = Ok (PInt tc) /\
    get_window check_is_scitype convert_to window_end_operand
      (PdDataFrame d) (Some w) L = Ok (PdDataFrame s) /\
    get_window check_is_scitype convert_to window_end_operand
      (PdDataFrame d) (Some (w + L)) 0 = Ok (PdDataFrame s') /\
    index_labels (df_index s)
      = filter (fun l => time l <=? tc - L) (index_labels (df_index s')) /\
    df_entries s
      = map (filter (fun e => time (fst e) <=? tc - L)) (df_entries s').
Proof.
  intros Hf Hd HL.
  destruct (get_cutoff_table_scalar d Hd) as [tc Hc].
  exists tc.
  exists (df_iloc d (map (fun l => in_window (tc - w - L) (tc - L) (time l))
                       (index_labels (df_index d)))).
  exists (df_iloc d (map (fun l => in_window (tc - (w + L) - 0) (tc - 0) (time l))
                       (index_labels (df_index d)))).
  split; [exact Hc|].
  split; [apply (get_window_table_eq d m w L tc Hf Hc)|].
  split; [apply (get_window_table_eq d m (w + L) 0 tc Hf Hc)|].
  destruct (df_iloc_window_entries d (tc - w - L) (tc - L)) as [H1 [_ H3]].
  destruct (df_iloc_window_entries d (tc - (w + L) - 0) (tc - 0)) as [H1' [_ H3']].
  rewrite H1, H1', H3, H3'. split.
  - rewrite filter_and. apply filter_ext. intros l.
    symmetry. apply in_window_lag. exact HL.
  - rewrite map_map. apply map_ext. intros es.
    rewrite filter_and. apply filter_ext. intros e.
    symmetry. apply in_window_lag. exact HL.
Qed.

(** X8. On a table-form container without nested cells [get_window] raises
    nothing, and its result is again a well-formed table without nested
    cells, with an index of the same kind and at most as many rows. *)
Theorem get_window_table_closed (d : dataframe) (m : string) (w L : Z) :
  table_form check_is_scitype convert_to d m -> plain_table d -> df_wf d ->
  exists s,
    get_window check_is_scitype convert_to window_end_operand
      (PdDataFrame d) (Some w) L = Ok (PdDataFrame s) /\
    df_wf s /\ plain_table s /\
    is_multiindex (df_index s) = is_multiindex (df_index d) /\
    (index_len (df_index s) <= index_len (df_index d))%nat.
Proof.
  intros Hf Hd Hwf.
  destruct (get_cutoff_table_scalar d Hd) as [tc Hc].
  eexists. split; [apply (get_window_table_eq d m w L tc Hf Hc)|].
  split; [apply df_iloc_wf; exact Hwf|].
  split; [apply plain_table_iloc; exact Hd|].
  rewrite df_index_iloc. split; [apply is_multiindex_iloc|].
  rewrite !index_len_labels, index_labels_iloc. apply select_mask_le.
Qed.

(** X9. The cutoff of a window of a table-form container without nested
    cells, when the window has a row at all, lies in the interval of the
    window; at no lag it is the cutoff of the container. *)
Theorem get_cutoff_of_get_window (d s : dataframe) (m : string) (w L : Z) :
  table_form check_is_scitype convert_to d m -> plain_table d ->
  get_window check_is_scitype convert_to window_end_operand
    (PdDataFrame d) (Some w) L = Ok (PdDataFrame s) ->
  index_len (df_index s) <> 0%nat ->
  exists tc tc',
    get_cutoff (PdDataFrame d) (Some 0) false = Ok (PInt tc) /\
    get_cutoff (PdDataFrame s) (Some 0) false = Ok (PInt tc') /\
    tc - w - L < tc' <= tc - L /\
    (L = 0 -> tc' = tc).
Proof.
  intros Hf Hd H Hn.
  destruct (get_cutoff_table_scalar d Hd) as [tc Hc].
  rewrite (get_window_table_eq d m w L tc Hf Hc) in H. injection H as H.
  assert (Hs : plain_table s) by (rewrite <- H; apply plain_table_iloc; exact Hd).
  destruct (plain_table_cutoff_in_times s (Some 0) Hs Hn) as [tc' [Hc' Hin]].
  exists tc, tc'. split; [exact Hc|]. split; [exact Hc'|].
  assert (Hw : tc - w - L < tc' <= tc - L).
  { rewrite get_level_values_last_labels in Hin. rewrite <- H in Hin.
    rewrite df_index_iloc, index_labels_iloc, select_mask_filter in Hin.
    apply in_map_iff in Hin. destruct Hin as [l [<- Hl]].
    apply filter_In in Hl. destruct Hl as [_ Hp].
    apply in_window_spec in Hp. exact Hp. }
  split; [exact Hw|].
  intros ->.
  assert (Hcs : get_cutoff (PdDataFrame s) (Some 0) false = Ok (PInt tc)).
  { rewrite <- H. replace (tc - 0) with tc by lia.
    apply (get_cutoff_of_window d (tc - w - 0) tc Hd Hc).
    replace (tc - 0) with tc in H by lia. rewrite H.
    rewrite index_len_labels in Hn. intros E. rewrite E in Hn. apply Hn. reflexivity. }
  rewrite Hcs in Hc'. injection Hc' as Hc'. symmetry. exact Hc'.
Qed.

(** X10. When the conversion to the supported mtypes gives an array,
    [get_window] raises nothing, whatever the window length, the lag and
    the second operand of the end, and returns an array that is not
    converted back: a block of consecutive entries of the array along its
    first axis, with the other dimensions unchanged. *)
Theorem get_window_array_block (obj : container) (m : string) (a : ndarray)
    (n : nat) (rest : list nat) (w lag : Z) :
  check_is_scitype obj = Some m ->
  convert_to obj GET_LATEST_WINDOW_SUPPORTED_MTYPES = Ok (NdArr a) ->
  shape a = n :: rest -> nd_wf a ->
  exists r k pre suf,
    get_window check_is_scitype convert_to window_end_operand obj (Some w) lag
      = Ok (NdArr r) /\
    shape r = k :: rest /\ (k <= n)%nat /\ nd_wf r /\
    data a = pre ++ data r ++ suf.
Proof.
  intros Hm Hto Hs Hwf. unfold get_window. rewrite Hm, Hto. unfold bind at 1.
  rewrite (get_window_ndarray_slice _ a n rest w lag Hs).
  destruct (nd_slice_block a n rest (Z.max (- w - lag) (- Z.of_nat n))
              (if Z.max (- lag) (window_end_operand a w lag) =? 0 then None
               else Some (Z.max (- lag) (window_end_operand a w lag))) Hs Hwf)
    as [r [k [pre [suf [Hr Hrest]]]]].
  exists r, k, pre, suf. rewrite Hr. split; [reflexivity | exact Hrest].
Qed.

End Windows.

Lemma panel_2x5_wf : df_wf panel_2x5.
Proof. repeat constructor. Qed.

Lemma get_window_lag_cuts_longer_window_witness :
  exists tc s s',
    get_cutoff (PdDataFrame panel_2x5) (Some 0) false = Ok (PInt tc) /\
    get_window sample_check_is_scitype sample_convert_to sample_window_end_operand
      (PdDataFrame panel_2x5) (Some 2) 1 = Ok (PdDataFrame s) /\
    get_window sample_check_is_scitype sample_convert_to sample_window_end_operand
      (PdDataFrame panel_2x5) (Some (2 + 1)) 0 = Ok (PdDataFrame s') /\
    index_labels (df_index s)
      = filter (fun l => time l <=? tc - 1) (index_labels (df_index s')) /\
    df_entries s
      = map (filter (fun e => time (fst e) <=? tc - 1)) (df_entries s').
Proof.
  apply (get_window_lag_cuts_longer_window sample_check_is_scitype
           sample_convert_to sample_window_end_operand panel_2x5 "pd-multiindex" 2 1).
  - exact (sample_table_form panel_2x5).
  - left. reflexivity.
  - lia.
Defined.

Lemma get_window_table_closed_witness :
  exists s,
    get_window sample_check_is_scitype sample_convert_to sample_window_end_operand
      (PdDataFrame panel_2x5) (Some 2) 1 = Ok (PdDataFrame s) /\
    df_wf s /\ plain_table s /\
    is_multiindex (df_index s) = is_multiindex (df_index panel_2x5) /\
    (index_len (df_index s) <= index_len (df_index panel_2x5))%nat.
Proof.
  apply (get_window_table_closed sample_check_is_scitype sample_convert_to
           sample_window_end_operand panel_2x5 "pd-multiindex" 2 1).
  - exact (sample_table_form panel_2x5).
  - left. reflexivity.
  - exact panel_2x5_wf.
Defined.

Lemma get_cutoff_of_get_window_witness :
  exists tc tc',
    get_cutoff (PdDataFrame panel_2x5) (Some 0) false = Ok (PInt tc) /\
    get_cutoff (PdDataFrame panel_2x5_window_2_1) (Some 0) false = Ok (PInt tc') /\
    tc - 2 - 1 < tc' <= tc - 1 /\
    (1 = 0 -> tc' = tc).
Proof.
  apply (get_cutoff_of_get_window sample_check_is_scitype sample_convert_to
           sample_window_end_operand panel_2x5 panel_2x5_window_2_1
           "pd-multiindex" 2 1).
  - exact (sample_table_form panel_2x5).
  - left. reflexivity.
  - reflexivity.
  - discriminate.
Defined.

Lemma get_window_array_block_witness :
  exists r k pre suf,
    get_window sample_check_is_scitype sample_convert_to sample_window_end_operand
      (NdArr buffer_2x3) (Some 1) 0 = Ok (NdArr r) /\
    shape r = k :: [3%nat] /\ (k <= 2)%nat /\ nd_wf r /\
    data buffer_2x3 = pre ++ data r ++ suf.
Proof.
  apply (get_window_array_block sample_check_is_scitype sample_convert_to
           sample_window_end_operand (NdArr buffer_2x3) "np.ndarray" buffer_2x3
           2 [3%nat] 1 0); reflexivity.
Defined.

Lemma get_window_table_idempotent_witness :
  get_window sample_check_is_scitype sample_convert_to sample_window_end_operand
    (PdDataFrame panel_2x5_window_2_0) (Some 3) 0
  = Ok (PdDataFrame panel_2x5_window_2_0).
Proof.
  apply (get_window_table_idempotent sample_check_is_scitype sample_convert_to
           sample_window_end_operand panel_2x5 panel_2x5_window_2_0
           "pd-multiindex" 2 3).
  - exact (sample_table_form panel_2x5).
  - exact (sample_table_form panel_2x5_window_2_0).
  - exact panel_2x5_wf.
  - left. reflexivity.
  - lia.
  - reflexivity.
Defined.

Lemma get_window_array_idempotent_witness :
  get_window sample_check_is_scitype sample_convert_to sample_window_end_operand
    (NdArr (NdArray [3%nat] [7; 8; 9])) (Some 5) 0
  = Ok (NdArr (NdArray [3%nat] [7; 8; 9])).
Proof.
  apply (get_window_array_idempotent sample_check_is_scitype sample_convert_to
           sample_window_end_operand buffer10 (NdArray [3%nat] [7; 8; 9])
           10 [] "np.ndarray" "np.ndarray" 3 5);
    try reflexivity; try lia;
    unfold sample_window_end_operand, buffer10; simpl; lia.
Defined.

(** ** The time index of a table with a MultiIndex *)

Lemma find_level_none (name : string) (names : list string) :
  ~ In name names -> find_level name names = None.
Proof.
  induction names as [|n names IH]; intros H; simpl; [reflexivity|].
  destruct (String.eqb n name) eqn:E.
  - apply String.eqb_eq in E. exfalso. apply H. left. exact E.
  - rewrite IH; [reflexivity|]. intros Hin. apply H. right. exact Hin.
Qed.

Lemma xs_first_instance_two_level (names : list string) (r0 : mlabel)
    (rest : list mlabel) :
  two_level names (r0 :: rest) ->
  xs_first_instance names (r0 :: rest)
  = Ok (Index (loc_times (r0 :: rest) (outer r0))).
Proof.
  intros [[tname ->] Hall]. rewrite Forall_forall in Hall.
  unfold xs_first_instance.
  change (find_level "instances" ["instances"%string; tname]) with (Some 0%nat).
  cbv iota beta.
  set (rows := r0 :: rest) in *.
  assert (H0 : exists k0, outer r0 = [k0]).
  { specialize (Hall r0 (or_introl eq_refl)).
    destruct (outer r0) as [|k0 [|k1 t]]; try discriminate. eexists. reflexivity. }
  destruct H0 as [k0 Hk0].
  assert (Hkey : nth 0 (mtuple r0) 0 = k0) by (unfold mtuple; rewrite Hk0; reflexivity).
  rewrite Hkey.
  change (remove_nth 0 ["instances"%string; tname]) with [tname].
  unfold index_of_tuples, loc_times. f_equal. f_equal.
  rewrite map_map.
  rewrite (filter_ext_in (fun r' => nth 0 (mtuple r') 0 =? k0)
             (fun r => list_eqb (outer r) (outer r0))).
  - apply map_ext_in. intros r Hr. apply filter_In in Hr. destruct Hr as [Hr _].
    specialize (Hall r Hr). unfold mtuple.
    destruct (outer r) as [|k [|k1 t]]; try discriminate. reflexivity.
  - intros r Hr. specialize (Hall r Hr). unfold mtuple. rewrite Hk0.
    destruct (outer r) as [|k [|k1 t]]; try discriminate. simpl.
    destruct (Z.eqb_spec k k0) as [->|Hne].
    + symmetry. apply list_eqb_eq. reflexivity.
    + destruct (list_eqb [k] [k0]) eqn:E; [|reflexivity].
      apply list_eqb_eq in E. congruence.
Qed.

(** X13. For a non-empty table or series with a MultiIndex of two levels,
    the first named instances, [get_time_index] returns the times of the
    rows of the instance of the first row, and looks at no other instance. *)
Theorem get_time_index_first_instance (names : list string) (r0 : mlabel)
    (rest : list mlabel) (cols : list column) (vals : list cell) :
  two_level names (r0 :: rest) ->
  get_time_index (PdDataFrame (DataFrame (MultiIndex names (r0 :: rest)) cols))
    = Ok (Index (loc_times (r0 :: rest) (outer r0))) /\
  get_time_index (PdSeries (Series (MultiIndex names (r0 :: rest)) vals))
    = Ok (Index (loc_times (r0 :: rest) (outer r0))).
Proof.
  intros H. split; apply (xs_first_instance_two_level names r0 rest H).
Qed.

Lemma get_time_index_first_instance_witness :
  get_time_index
    (PdDataFrame
       (DataFrame (MultiIndex ["instances"; "timepoints"]%string
                     [MLabel [0] 0; MLabel [0] 1; MLabel [1] 0; MLabel [1] 1; MLabel [1] 2])
          []))
  = Ok (Index [0; 1]).
Proof.
  refine (proj1 (get_time_index_first_instance ["instances"; "timepoints"]%string
                   (MLabel [0] 0)
                   [MLabel [0] 1; MLabel [1] 0; MLabel [1] 1; MLabel [1] 2] [] [] _)).
  split; [eexists; reflexivity | repeat constructor].
Defined.

(** X14. On a table or series with a MultiIndex that has no level named
    instances, [get_time_index] raises [KeyError], whatever the rows. *)
Theorem get_time_index_needs_instances_level (names : list string)
    (rows : list mlabel) (cols : list column) (vals : list cell) :
  ~ In "instances"%string names ->
  get_time_index (PdDataFrame (DataFrame (MultiIndex names rows) cols))
    = Raise KeyError /\
  get_time_index (PdSeries (Series (MultiIndex names rows) vals))
    = Raise KeyError.
Proof.
  intros H. unfold get_time_index, xs_first_instance. simpl.
  rewrite (find_level_none _ names H). split; reflexivity.
Qed.

Lemma get_time_index_needs_instances_level_witness :
  get_time_index (PdDataFrame unnamed_panel) = Raise KeyError.
Proof.
  refine (proj1 (get_time_index_needs_instances_level ["id"; "time"]%string
                   [MLabel [0] 0; MLabel [0] 1]
                   [Column "a" DtNumeric [CNum 1; CNum 2]] [] _)).
  intros [H|[H|[]]]; discriminate.
Defined.

(** X15. For a non-empty panel of two index levels, the first named
    instances, whose instances all have the times [T]: [get_time_index]
    returns [T], and [get_cutoff] returns the last of [T]. *)
Theorem get_time_index_and_cutoff_of_shared_index (names : list string)
    (rows : list mlabel) (cols : list column) (T : list Z) (cutoff : option Z) :
  two_level names rows -> rows <> [] -> shared_time_index rows T ->
  get_time_index (PdDataFrame (DataFrame (MultiIndex names rows) cols))
    = Ok (Index T) /\
  get_cutoff (PdDataFrame (DataFrame (MultiIndex names rows) cols)) cutoff false
    = Ok (PInt (last T 0)).
Proof.
  intros H2 Hne Hsh. destruct rows as [|r0 rest]; [contradiction|]. split.
  - change (xs_first_instance names (r0 :: rest) = Ok (Index T)).
    rewrite (xs_first_instance_two_level names r0 rest H2).
    rewrite (Hsh r0 (or_introl eq_refl)). reflexivity.
  - destruct (get_cutoff_plain_table_max
                (DataFrame (MultiIndex names (r0 :: rest)) cols) cutoff)
      as [tc [Hc [Hin _]]].
    + left. reflexivity.
    + discriminate.
    + rewrite Hc. f_equal. f_equal. simpl index_labels in Hin.
      apply in_map_iff in Hin. destruct Hin as [g [<- Hg]].
      destruct (instance_last_is_time _ g Hg) as [r [Hr [Ho _]]].
      unfold instance_last. rewrite <- Ho.
      change (map time (filter (fun r1 => list_eqb (outer r1) (outer r)) (r0 :: rest)))
        with (loc_times (r0 :: rest) (outer r)).
      rewrite (Hsh r Hr). reflexivity.
Qed.

Lemma panel_2x5_shared : shared_time_index (index_labels (df_index panel_2x5)) (zrange 0 5).
Proof.
  intros r Hr. simpl in Hr.
  repeat (destruct Hr as [<-|Hr]; [reflexivity|]). contradiction.
Qed.

Lemma get_time_index_and_cutoff_of_shared_index_witness :
  get_time_index (PdDataFrame panel_2x5) = Ok (Index (zrange 0 5)) /\
  get_cutoff (PdDataFrame panel_2x5) (Some 0) false = Ok (PInt (last (zrange 0 5) 0)).
Proof.
  apply (get_time_index_and_cutoff_of_shared_index
           ["instances"; "timepoints"]%string
           (index_labels (df_index panel_2x5))
           [Column "a" DtNumeric (map CNum (zrange 0 10))] (zrange 0 5) (Some 0)).
  - split; [eexists; reflexivity | repeat constructor].
  - discriminate.
  - exact panel_2x5_shared.
Defined.

(** ** The offset of [get_cutoff] *)

(** X16. The offset only counts for arrays and for empty containers: on a
    non-empty object that is no array, [get_cutoff] returns the same for
    every offset. *)
Theorem get_cutoff_offset_only_for_arrays (obj : container) (c c' : option Z)
    (return_index : bool) :
  (forall a, obj <> NdArr a) -> py_len obj <> Ok 0%nat ->
  get_cutoff obj c return_index = get_cutoff obj c' return_index.
Proof.
  intros Ha Hn. unfold get_cutoff.
  destruct (py_len obj) as [n|e] eqn:E; [|reflexivity].
  unfold bind. destruct n as [|n]; [contradiction|]. simpl Nat.eqb. cbv iota.
  destruct obj; try reflexivity. exfalso. apply (Ha a). reflexivity.
Qed.

Lemma get_cutoff_offset_only_for_arrays_witness :
  get_cutoff (PdSeries series_3) (Some 10) false
  = get_cutoff (PdSeries series_3) None false.
Proof.
  apply (get_cutoff_offset_only_for_arrays (PdSeries series_3) (Some 10) None false).
  - intros a. discriminate.
  - discriminate.
Defined.

(** X17. The scalar cutoff of an array moves with the offset: when it is
    [v] at the offset [c], it is [v + k] at the offset [c + k]. *)
Theorem get_cutoff_ndarray_shifts_with_offset (a : ndarray) (c k v : Z) :
  get_cutoff (NdArr a) (Some c) false = Ok (PInt v) ->
  get_cutoff (NdArr a) (Some (c + k)) false = Ok (PInt (v + k)).
Proof.
  unfold get_cutoff. simpl py_len.
  destruct (nd_len a) as [n|e]; [|discriminate]. unfold bind.
  destruct (Nat.eqb n 0).
  - intros H. injection H as <-. reflexivity.
  - unfold get_cutoff_ndarray, bind.
    destruct (Nat.eqb (ndim a) 3).
    + destruct (shape_last a) as [m|e]; [|discriminate].
      intros H. injection H as <-. f_equal. f_equal. lia.
    + destruct (Nat.ltb (ndim a) 3 && Nat.ltb 0 (ndim a)); [|discriminate].
      destruct (shape_first a) as [m|e]; [|discriminate].
      intros H. injection H as <-. f_equal. f_equal. lia.
Qed.

Lemma get_cutoff_ndarray_shifts_with_offset_witness :
  get_cutoff (NdArr buffer10) (Some (0 + 5)) false = Ok (PInt (10 + 5)).
Proof.
  apply (get_cutoff_ndarray_shifts_with_offset buffer10 0 5 10). reflexivity.
Defined.

(** ** A window length that is not positive *)

(** X18. On an array, with no lag and a second operand of the end that is
    not positive, a window length [w] that is zero or negative gives the
    array without its first [-w] entries: the whole array for the length
    0. *)
Theorem get_window_ndarray_nonpositive_length (e : Z) (a : ndarray) (n : nat)
    (rest : list nat) (w : Z) :
  shape a = n :: rest -> nd_wf a -> e <= 0 -> w <= 0 ->
  get_window_ndarray e a w 0
  = Ok (NdArray ((n - Nat.min (Z.to_nat (- w)) n)%nat :: rest)
          (skipn (Nat.min (Z.to_nat (- w)) n * stride a) (data a))).
Proof.
  intros Hs Hwf He Hw.
  rewrite (get_window_ndarray_slice e a n rest w 0 Hs).
  replace (Z.max (- 0) e) with 0 by lia. simpl.
  unfold nd_slice. rewrite Hs.
  set (k := Nat.min (Z.to_nat (- w)) n).
  assert (Hlo : slice_bound (Z.of_nat n) (Z.max (- w - 0) (- Z.of_nat n))
                = Z.of_nat k).
  { unfold slice_bound, k.
    destruct (Z.max (- w - 0) (- Z.of_nat n) <? 0) eqn:E.
    - apply Z.ltb_lt in E. lia.
    - apply Z.ltb_ge in E. lia. }
  rewrite Hlo.
  assert (Hk0 : Z.to_nat (Z.of_nat n - Z.of_nat k) = (n - k)%nat) by lia.
  rewrite Hk0, Nat2Z.id. f_equal. f_equal.
  pose proof (nd_wf_length a n rest Hs Hwf) as Hlen.
  apply firstn_all2. rewrite length_skipn, Hlen.
  assert (Hk : (k <= n)%nat) by (unfold k; lia). nia.
Qed.

Lemma get_window_ndarray_nonpositive_length_witness :
  get_window_ndarray (-10) buffer10 (-7) 0 = Ok (NdArray [3%nat] [7; 8; 9]).
Proof.
  apply (get_window_ndarray_nonpositive_length (-10) buffer10 10 [] (-7));
    try reflexivity; lia.
Defined.

(** ** The size of a window of a table *)

Section WindowSize.

Variable check_is_scitype : container -> option string.
Variable convert_to : container -> list string -> result container.
Variable window_end_operand : ndarray -> Z -> Z -> Z.

(** X19. On a table-form container without nested cells, a window length
    that is zero or negative gives a table of no row, at every lag. *)
Theorem get_window_table_nonpositive_length (d : dataframe) (m : string) (w L : Z) :
  table_form check_is_scitype convert_to d m -> plain_table d -> w <= 0 ->
  exists s,
    get_window check_is_scitype convert_to window_end_operand
      (PdDataFrame d) (Some w) L = Ok (PdDataFrame s) /\
    index_len (df_index s) = 0%nat.
Proof.
  intros Hf Hd Hw.
  destruct (get_cutoff_table_scalar d Hd) as [tc Hc].
  eexists. split; [apply (get_window_table_eq _ _ _ d m w L tc Hf Hc)|].
  rewrite df_index_iloc, index_len_labels, index_labels_iloc, select_mask_filter.
  rewrite filter_none; [reflexivity|].
  intros l _. destruct (in_window (tc - w - L) (tc - L) (time l)) eqn:E;
    [|reflexivity].
  apply in_window_spec in E. lia.
Qed.

(** X20. On a non-empty table-form container without nested cells, the
    window of a positive length at no lag is not empty: it has a row at
    the cutoff. *)
Theorem get_window_table_has_cutoff_row (d : dataframe) (m : string) (w : Z) :
  table_form check_is_scitype convert_to d m -> plain_table d ->
  index_len (df_index d) <> 0%nat -> 0 < w ->
  exists tc s,
    get_cutoff (PdDataFrame d) (Some 0) false = Ok (PInt tc) /\
    get_window check_is_scitype convert_to window_end_operand
      (PdDataFrame d) (Some w) 0 = Ok (PdDataFrame s) /\
    In tc (get_level_values_last (df_index s)).
Proof.
  intros Hf Hd Hn Hw.
  destruct (plain_table_cutoff_in_times d (Some 0) Hd Hn) as [tc [Hc Hin]].
  exists tc. eexists. split; [exact Hc|].
  split; [apply (get_window_table_eq _ _ _ d m w 0 tc Hf Hc)|].
  rewrite get_level_values_last_labels in *.
  rewrite df_index_iloc, index_labels_iloc, select_mask_filter.
  apply in_map_iff in Hin. destruct Hin as [l [Ht Hl]].
  apply in_map_iff. exists l. split; [exact Ht|].
  apply filter_In. split; [exact Hl|].
  apply in_window_spec. lia.
Qed.

End WindowSize.

Lemma increasing_tail (x : Z) (l : list Z) :
  increasing (x :: l) = true -> increasing l = true.
Proof.
  destruct l as [|y l]; [reflexivity|].
  change (increasing (x :: y :: l)) with ((x <? y) && increasing (y :: l)).
  intros H. apply andb_true_iff in H. apply H.
Qed.

Lemma increasing_head_lt (l : list Z) (x y : Z) :
  increasing (x :: l) = true -> In y l -> x < y.
Proof.
  revert x. induction l as [|z l IH]; intros x Hs Hy; [contradiction|].
  change (increasing (x :: z :: l)) with ((x <? z) && increasing (z :: l)) in Hs.
  apply andb_true_iff in Hs. destruct Hs as [Hxz Hs]. apply Z.ltb_lt in Hxz.
  destruct Hy as [<-|Hy]; [exact Hxz|].
  specialize (IH z Hs Hy). lia.
Qed.

(** Strictly increasing integers in a half-open interval are at most as
    many as the interval is long. *)
Lemma increasing_window_length (l : list Z) :
  increasing l = true ->
  forall lo hi, (length (filter (in_window lo hi) l) <= Z.to_nat (hi - lo))%nat.
Proof.
  induction l as [|x l IH]; intros Hs lo hi; simpl; [lia|].
  pose proof (increasing_tail x l Hs) as Hl.
  destruct (in_window lo hi x) eqn:E.
  - apply in_window_spec in E.
    rewrite (filter_ext_in (in_window lo hi) (in_window x hi)).
    + specialize (IH Hl x hi). simpl. lia.
    + intros y Hy. pose proof (increasing_head_lt l x y Hs Hy) as Hxy.
      unfold in_window. f_equal.
      destruct (Z.ltb_spec lo y), (Z.ltb_spec x y); reflexivity || lia.
  - apply IH. exact Hl.
Qed.

Lemma map_filter_comm {A B : Type} (f : A -> B) (q : B -> bool) (l : list A) :
  map f (filter (fun x => q (f x)) l) = filter q (map f l).
Proof.
  induction l as [|x l IH]; simpl; [reflexivity|].
  destruct (q (f x)); simpl; rewrite IH; reflexivity.
Qed.

(** X21. On a table-form container without nested cells, the window of a
    length [w] that is not negative has at most [w] rows of every instance
    whose times are strictly increasing integers. *)
Theorem get_window_table_at_most_w_rows
    (check_is_scitype : container -> option string)
    (convert_to : container -> list string -> result container)
    (window_end_operand : ndarray -> Z -> Z -> Z)
    (d : dataframe) (m : string) (w L : Z) (g : list Z) :
  table_form check_is_scitype convert_to d m -> plain_table d -> 0 <= w ->
  increasing (loc_times (index_labels (df_index d)) g) = true ->
  exists s,
    get_window check_is_scitype convert_to window_end_operand
      (PdDataFrame d) (Some w) L = Ok (PdDataFrame s) /\
    (length (loc_times (index_labels (df_index s)) g) <= Z.to_nat w)%nat.
Proof.
  intros Hf Hd Hw Hs.
  destruct (get_cutoff_table_scalar d Hd) as [tc Hc].
  eexists. split; [apply (get_window_table_eq _ _ _ d m w L tc Hf Hc)|].
  rewrite df_index_iloc, index_labels_iloc, select_mask_filter.
  unfold loc_times in *. rewrite filter_comm.
  rewrite (map_filter_comm time (in_window (tc - w - L) (tc - L))).
  replace (Z.to_nat w) with (Z.to_nat (tc - L - (tc - w - L))) by (f_equal; lia).
  apply increasing_window_length. exact Hs.
Qed.

Lemma get_window_table_nonpositive_length_witness :
  exists s,
    get_window sample_check_is_scitype sample_convert_to sample_window_end_operand
      (PdDataFrame panel_2x5) (Some 0) 0 = Ok (PdDataFrame s) /\
    index_len (df_index s) = 0%nat.
Proof.
  apply (get_window_table_nonpositive_length sample_check_is_scitype
           sample_convert_to sample_window_end_operand panel_2x5 "pd-multiindex" 0 0).
  - exact (sample_table_form panel_2x5).
  - left. reflexivity.
  - lia.
Defined.

Lemma get_window_table_has_cutoff_row_witness :
  exists tc s,
    get_cutoff (PdDataFrame panel_2x5) (Some 0) false = Ok (PInt tc) /\
    get_window sample_check_is_scitype sample_convert_to sample_window_end_operand
      (PdDataFrame panel_2x5) (Some 2) 0 = Ok (PdDataFrame s) /\
    In tc (get_level_values_last (df_index s)).
Proof.
  apply (get_window_table_has_cutoff_row sample_check_is_scitype
           sample_convert_to sample_window_end_operand panel_2x5 "pd-multiindex" 2).
  - exact (sample_table_form panel_2x5).
  - left. reflexivity.
  - discriminate.
  - lia.
Defined.

Lemma get_window_table_at_most_w_rows_witness :
  exists s,
    get_window sample_check_is_scitype sample_convert_to sample_window_end_operand
      (PdDataFrame panel_2x5) (Some 2) 1 = Ok (PdDataFrame s) /\
    (length (loc_times (index_labels (df_index s)) [0%Z]) <= Z.to_nat 2)%nat.
Proof.
  apply (get_window_table_at_most_w_rows sample_check_is_scitype
           sample_convert_to sample_window_end_operand panel_2x5 "pd-multiindex"
           2 1 [0]).
  - exact (sample_table_form panel_2x5).
  - left. reflexivity.
  - lia.
  - reflexivity.
Defined.
